(** * BrandAI front end (static/script.js): a shallow embedding

    The script is one [DOMContentLoaded] closure holding two mutable
    variables ([imageFile], [currentRefinementPlan]), a handful of DOM
    elements looked up by id, and event handlers.  The embedding keeps that
    shape: JavaScript values as an inductive type, numbers as IEEE-754
    binary64 ([spec_float]), the page as a store of elements indexed by id,
    and every handler as a function on an explicit state.  An [async]
    handler is cut at its [await]: the part that runs on the click, and
    the part that runs when the request settles. *)

From Stdlib Require Import ZArith QArith Lia List String Ascii Bool DecimalString.
From Stdlib Require Import Floats.SpecFloat.
Import ListNotations.

Local Open Scope Z_scope.
Local Open Scope string_scope.
Set Warnings "-register-all".

(** ** JavaScript numbers *)

Module JsNumber.

(** A JavaScript number is a binary64 value: 53 bits of precision,
    infinities at exponent 1024. *)
Definition number := spec_float.
Definition prec : Z := 53.
Definition emax : Z := 1024.

Definition is_binary64 (x : number) : bool := valid_binary prec emax x.

Definition NaN : number := S754_nan.

(** The literals of the script, as the parser rounds them:
    [0.8] is 0x1.999999999999ap-1 and [0.5] is exact. *)
Definition lit_0_8 : number := S754_finite false 7205759403792794 (-53).
Definition lit_0_5 : number := S754_finite false 4503599627370496 (-53).

(** [a >= b] on numbers: false as soon as the comparison is undefined. *)
Definition ge (a b : number) : bool :=
  match SFcompare a b with
  | Some Gt | Some Eq => true
  | _ => false
  end.

(** The exact value of a finite number, [(-1)^s * m * 2^e]. *)
Definition F2Q (s : bool) (m : positive) (e : Z) : Q :=
  let n := if s then Zneg m else Zpos m in
  match e with
  | Z0 => n # 1
  | Zpos p => (n * Zpos (2 ^ p)) # 1
  | Zneg p => n # (2 ^ p)
  end.

(** [at_least q x]: the number [x] denotes a value that is [>= q];
    [below x q]: it denotes a value that is [< q].  NaN denotes none. *)
Definition at_least (q : Q) (x : number) : Prop :=
  match x with
  | S754_zero _ => (q <= 0)%Q
  | S754_infinity s => s = false
  | S754_nan => False
  | S754_finite s m e => (q <= F2Q s m e)%Q
  end.

Definition below (x : number) (q : Q) : Prop :=
  match x with
  | S754_zero _ => (0 < q)%Q
  | S754_infinity s => s = true
  | S754_nan => False
  | S754_finite s m e => (F2Q s m e < q)%Q
  end.

End JsNumber.

(** ** The score colour *)

Definition success_color : string := "var(--success-color)".
Definition warning_color : string := "var(--warning-color)".
Definition danger_color : string := "var(--danger-color)".

(** [getScoreColor] on a number, line for line. *)
Definition getScoreColor (score : JsNumber.number) : string :=
  if JsNumber.ge score JsNumber.lit_0_8 then success_color
  else if JsNumber.ge score JsNumber.lit_0_5 then warning_color
  else danger_color.

(** ** JavaScript values

    What [response.json()] can produce, plus [undefined] for an absent
    property.  An object is the list of its own properties. *)

Inductive JsVal : Type :=
| JUndefined
| JNull
| JBool (b : bool)
| JNum (n : JsNumber.number)
| JStr (s : string)
| JArr (items : list JsVal)
| JObj (fields : list (string * JsVal)).

Fixpoint own (fields : list (string * JsVal)) (k : string) : option JsVal :=
  match fields with
  | [] => None
  | (k', v) :: rest => if String.eqb k' k then Some v else own rest k
  end.

(** Truthiness, as [!x], [x && y] and [x || y] test it. *)
Definition ToBoolean (v : JsVal) : bool :=
  match v with
  | JUndefined | JNull => false
  | JBool b => b
  | JNum (S754_zero _) | JNum S754_nan => false
  | JNum _ => true
  | JStr s => negb (String.eqb s "")
  | JArr _ | JObj _ => true
  end.

(** [a || b] *)
Definition js_or (a b : JsVal) : JsVal := if ToBoolean a then a else b.

(** ToNumber, where the script relies on it ([score * 100], [score >= 0.8],
    [length > 0]).  The conversion of a string, and of an array or object
    through its string form, is not expanded: [None]. *)
Definition ToNumber (v : JsVal) : option JsNumber.number :=
  match v with
  | JUndefined => Some JsNumber.NaN
  | JNull => Some (S754_zero false)
  | JBool false => Some (S754_zero false)
  | JBool true => Some (S754_finite false 4503599627370496 (-52))
  | JNum n => Some n
  | JStr _ | JArr _ | JObj _ => None
  end.

(** Errors raised by the engine itself; their message text is the
    engine's own wording. *)
Inductive EngineError : Type :=
| ReadOfNullish (base : JsVal) (prop : string)
| NotAFunction (prop : string)
| JsonSyntax.

(** ** Strings written to the page

    A text is the sequence of the pieces it was built from: known strings,
    and the three conversions whose characters depend on the engine's
    number formatting or wording. *)
Inductive Piece : Type :=
| PStr (s : string)
| PToString (v : JsVal)             (* String(v), v a number, array or object *)
| PFixed0 (n : JsNumber.number)     (* (n * 100).toFixed(0) *)
| PMessage (e : EngineError).       (* message of a built-in error *)

Definition Text := list Piece.

(** The string a text denotes, when it has no engine-dependent piece. *)
Fixpoint as_string (t : Text) : option string :=
  match t with
  | [] => Some EmptyString
  | PStr s :: rest =>
      match as_string rest with
      | Some r => Some (s ++ r)
      | None => None
      end
  | _ :: _ => None
  end.

(** The result of ToString, as a template literal or [new Error(x)]
    applies it, on the values for which it returns ([stringifies],
    below). *)
Definition ToString (v : JsVal) : Text :=
  match v with
  | JUndefined => [PStr "undefined"]
  | JNull => [PStr "null"]
  | JBool true => [PStr "true"]
  | JBool false => [PStr "false"]
  | JStr s => [PStr s]
  | JNum _ | JArr _ | JObj _ => [PToString v]
  end.

(** The [textContent] setter: [null] and [undefined] write the empty
    string, anything else its ToString. *)
Definition textContentOf (v : JsVal) : Text :=
  match v with
  | JUndefined | JNull => []
  | _ => ToString v
  end.

(** Whether the conversion of a parsed value to a string goes through.
    An object converts through [Object.prototype.toString] unless it has
    a property of its own named [toString] (in parsed JSON such a property
    is never callable); an array converts through [join], which converts
    its elements, [null] excepted. *)
Fixpoint stringifies (v : JsVal) : bool :=
  match v with
  | JObj fields =>
      match own fields "toString" with
      | Some _ => false
      | None => true
      end
  | JArr items =>
      (fix all (l : list JsVal) : bool :=
         match l with
         | [] => true
         | x :: rest => stringifies x && all rest
         end) items
  | _ => true
  end.

Inductive JsError : Type :=
| Engine (e : EngineError)
| NetworkFailure (message : string)     (* fetch() rejected *)
| Error_ (message : Text).              (* new Error(message) *)

(** [error.message] *)
Definition error_message (e : JsError) : Text :=
  match e with
  | Engine x => [PMessage x]
  | NetworkFailure m => [PStr m]
  | Error_ t => t
  end.

(** ** The page *)

(** The elements the script looks up.  The document (index.html) is taken
    to declare each of them; the two [placeholder_*] entries are the
    [.placeholder-title] and [.placeholder-text] descendants of
    [results_placeholder], and [upload_area] is [.upload-area]. *)
Inductive ElementId : Type :=
| upload_button | image_upload | submit_button | regenerate_button
| file_name | upload_area
| regenerated_image_loader | regenerated_image | regenerated_image_placeholder
| results_placeholder | placeholder_title | placeholder_text
| results_content | images_results_section | loader
| original_image | results_title | overall_score
| scorecard_container | strengths_list | refinement_plan_text.

Scheme Equality for ElementId.

(** Children the script creates. *)
Inductive Node : Type :=
| Li (text : Text)
| ScoreCard (title : string) (badge_color : string) (badge : Text)
    (feedback : Text).

Record Element : Type := mkElement {
  style_display : string;
  style_backgroundColor : string;
  textContent : Text;
  src : Text;
  disabled : bool;
  drag_over : bool;            (* classList contains 'drag-over' *)
  children : list Node
}.

Definition Dom := ElementId -> Element.

Definition with_display (v : string) (e : Element) : Element :=
  mkElement v (style_backgroundColor e) (textContent e) (src e) (disabled e)
    (drag_over e) (children e).
Definition with_backgroundColor (v : string) (e : Element) : Element :=
  mkElement (style_display e) v (textContent e) (src e) (disabled e)
    (drag_over e) (children e).
Definition with_textContent (v : Text) (e : Element) : Element :=
  mkElement (style_display e) (style_backgroundColor e) v (src e) (disabled e)
    (drag_over e) (children e).
Definition with_src (v : Text) (e : Element) : Element :=
  mkElement (style_display e) (style_backgroundColor e) (textContent e) v
    (disabled e) (drag_over e) (children e).
Definition with_disabled (v : bool) (e : Element) : Element :=
  mkElement (style_display e) (style_backgroundColor e) (textContent e) (src e)
    v (drag_over e) (children e).
Definition with_drag_over (v : bool) (e : Element) : Element :=
  mkElement (style_display e) (style_backgroundColor e) (textContent e) (src e)
    (disabled e) v (children e).
Definition with_children (v : list Node) (e : Element) : Element :=
  mkElement (style_display e) (style_backgroundColor e) (textContent e) (src e)
    (disabled e) (drag_over e) v.

Definition upd (id : ElementId) (f : Element -> Element) (d : Dom) : Dom :=
  fun k => (if ElementId_beq k id then f else fun e => e) (d k).

(** ** The closure's state *)

Record File : Type := mkFile {
  name : string;
  type : string                (* the declared media type *)
}.

(** A request handed to [fetch].  [Regenerate body] carries the value given
    to [JSON.stringify]; its serialisation is not expanded. *)
Inductive Request : Type :=
| Evaluate (image : File)              (* POST /evaluate, multipart field image *)
| Regenerate (body : JsVal).           (* POST /regenerate, JSON body *)

Record State : Type := mkState {
  imageFile : option File;             (* null or the candidate *)
  currentRefinementPlan : JsVal;
  dom : Dom;
  alerts : list string;                (* alert() calls, latest first *)
  console : list (string * JsError);   (* console.error calls, latest first *)
  requests : list Request;             (* every fetch issued, latest first *)
  evaluations_in_flight : nat;         (* /evaluate requests not yet settled *)
  regenerations_in_flight : nat        (* /regenerate requests not yet settled *)
}.

Definition initial (page : Dom) : State :=
  mkState None JNull page [] [] [] 0%nat 0%nat.

Definition with_imageFile (v : option File) (st : State) : State :=
  mkState v (currentRefinementPlan st) (dom st) (alerts st) (console st)
    (requests st) (evaluations_in_flight st) (regenerations_in_flight st).
Definition with_plan (v : JsVal) (st : State) : State :=
  mkState (imageFile st) v (dom st) (alerts st) (console st)
    (requests st) (evaluations_in_flight st) (regenerations_in_flight st).
Definition with_dom (v : Dom) (st : State) : State :=
  mkState (imageFile st) (currentRefinementPlan st) v (alerts st) (console st)
    (requests st) (evaluations_in_flight st) (regenerations_in_flight st).
Definition with_alert (msg : string) (st : State) : State :=
  mkState (imageFile st) (currentRefinementPlan st) (dom st)
    (msg :: alerts st) (console st)
    (requests st) (evaluations_in_flight st) (regenerations_in_flight st).
Definition with_console (label : string) (e : JsError) (st : State) : State :=
  mkState (imageFile st) (currentRefinementPlan st) (dom st)
    (alerts st) ((label, e) :: console st)
    (requests st) (evaluations_in_flight st) (regenerations_in_flight st).
Definition with_request (r : Request) (st : State) : State :=
  mkState (imageFile st) (currentRefinementPlan st) (dom st)
    (alerts st) (console st) (r :: requests st)
    (match r with
     | Evaluate _ => S (evaluations_in_flight st)
     | Regenerate _ => evaluations_in_flight st
     end)
    (match r with
     | Evaluate _ => regenerations_in_flight st
     | Regenerate _ => S (regenerations_in_flight st)
     end).
Definition settled_evaluation (st : State) : State :=
  mkState (imageFile st) (currentRefinementPlan st) (dom st)
    (alerts st) (console st) (requests st)
    (Nat.pred (evaluations_in_flight st)) (regenerations_in_flight st).
Definition settled_regeneration (st : State) : State :=
  mkState (imageFile st) (currentRefinementPlan st) (dom st)
    (alerts st) (console st) (requests st)
    (evaluations_in_flight st) (Nat.pred (regenerations_in_flight st)).

(** ** Statements: state, exceptions

    A statement either returns, or throws with the state it had reached,
    or reaches a conversion the embedding does not expand: to a number,
    of a string, an array or an object; to a string, of an object with a
    [toString] property of its own. *)

Inductive Outcome (A : Type) : Type :=
| Returns (a : A) (st : State)
| Throws (e : JsError) (st : State)
| Unexpanded.

Arguments Returns {A} a st.
Arguments Throws {A} e st.
Arguments Unexpanded {A}.

Definition M (A : Type) : Type := State -> Outcome A.

Definition ret {A} (a : A) : M A := fun st => Returns a st.
Definition throw {A} (e : JsError) : M A := fun st => Throws e st.
Definition unexpanded {A} : M A := fun _ => Unexpanded.
Definition bind {A B} (m : M A) (k : A -> M B) : M B :=
  fun st =>
    match m st with
    | Returns a st' => k a st'
    | Throws e st' => Throws e st'
    | Unexpanded => Unexpanded
    end.
Definition read {A} (f : State -> A) : M A := fun st => Returns (f st) st.
Definition modify (f : State -> State) : M unit := fun st => Returns tt (f st).

Declare Scope js_scope.
Delimit Scope js_scope with js.
Notation "x <- m ;; k" := (bind m (fun x => k))
  (at level 61, m at next level, right associativity) : js_scope.
Notation "m ;; k" := (bind m (fun _ => k))
  (at level 61, right associativity) : js_scope.
Local Open Scope js_scope.

(** [try { body } catch (error) { handler }] *)
Definition try_catch (body : M unit) (handler : JsError -> M unit) : M unit :=
  fun st =>
    match body st with
    | Returns a st' => Returns a st'
    | Throws e st' => handler e st'
    | Unexpanded => Unexpanded
    end.

(** [try { body } finally { final }] *)
Definition try_finally (body : M unit) (final : M unit) : M unit :=
  fun st =>
    match body st with
    | Returns _ st' => final st'
    | Throws e st' =>
        match final st' with
        | Returns _ st'' => Throws e st''
        | other => other
        end
    | Unexpanded => Unexpanded
    end.

Fixpoint forEach {A} (f : A -> M unit) (l : list A) : M unit :=
  match l with
  | [] => ret tt
  | x :: rest => f x ;; forEach f rest
  end.

(** [v.k], for the property names the script reads on response data:
    a read on [undefined] or [null] throws; an object yields its own
    property; any other value has none of these names. *)
Definition get (v : JsVal) (k : string) : M JsVal :=
  match v with
  | JUndefined | JNull => throw (Engine (ReadOfNullish v k))
  | JObj fields =>
      match own fields k with
      | Some x => ret x
      | None => ret JUndefined
      end
  | JBool _ | JNum _ | JStr _ | JArr _ => ret JUndefined
  end.

(** [v.length > 0] for a truthy [v]. *)
Definition length_positive (v : JsVal) : M bool :=
  match v with
  | JUndefined | JNull => throw (Engine (ReadOfNullish v "length"))
  | JArr items => ret (negb (Nat.eqb (List.length items) 0))
  | JStr s => ret (negb (Nat.eqb (String.length s) 0))
  | JBool _ | JNum _ => ret false
  | JObj fields =>
      match own fields "length" with
      | None => ret false
      | Some x =>
          match ToNumber x with
          | Some n =>
              ret (match SFcompare n (S754_zero false) with
                   | Some Gt => true
                   | _ => false
                   end)
          | None => unexpanded
          end
      end
  end.

(** Element updates. *)
Definition on (id : ElementId) (f : Element -> Element) : M unit :=
  modify (fun st => with_dom (upd id f (dom st)) st).

Definition alert (msg : string) : M unit := modify (with_alert msg).
Definition console_error (label : string) (e : JsError) : M unit :=
  modify (with_console label e).
(** [fetch(...)]: the request leaves; the handler resumes when it settles. *)
Definition fetch (r : Request) : M unit := modify (with_request r).

(** The conversion to a string of a value taken from a response, in a
    template literal, in [new Error(x)] or by the [src] setter.  On a value
    that does not satisfy [stringifies] the engine consults the value's own
    [toString] property; that path is not expanded. *)
Definition toString (v : JsVal) : M Text :=
  if stringifies v then ret (ToString v) else unexpanded.

(** The same, as the [textContent] setter converts. *)
Definition toTextContent (v : JsVal) : M Text :=
  if stringifies v then ret (textContentOf v) else unexpanded.

(** ** The script's functions *)

Definition rejection_message : string := "Please select a valid image file.".

(** [handleFile(file)], for the file its two callers pass after their
    [if (file)] test. *)
Definition handleFile (file : File) : M unit :=
  if String.prefix "image/" (type file) then
    modify (with_imageFile (Some file)) ;;
    on file_name (with_textContent [PStr (name file)]) ;;
    on submit_button (with_disabled false)
  else
    modify (with_imageFile None) ;;
    on file_name (with_textContent [PStr rejection_message]) ;;
    on submit_button (with_disabled true).

Definition showLoadingState : M unit :=
  on results_placeholder (with_display "none") ;;
  on results_content (with_display "none") ;;
  on images_results_section (with_display "none") ;;
  on loader (with_display "flex") ;;
  on regenerate_button (with_display "none").

Definition showErrorState (message : Text) : M unit :=
  on loader (with_display "none") ;;
  on results_placeholder (with_display "flex") ;;
  on placeholder_title (with_textContent [PStr "Analysis Failed"]) ;;
  on placeholder_text (with_textContent message).

(** [getScoreColor(score)] on an arbitrary value: both comparisons convert
    it with ToNumber. *)
Definition scoreColor (score : JsVal) : M string :=
  match ToNumber score with
  | Some n => ret (getScoreColor n)
  | None => unexpanded
  end.

(** [(score * 100).toFixed(0)] *)
Definition percent (score : JsVal) : M Text :=
  match ToNumber score with
  | Some n => ret [PFixed0 n]
  | None => unexpanded
  end.

(** One turn of the loop over [Object.entries(scorecardData)].  The card's
    markup is kept as its three interpolated texts. *)
Definition appendScoreCard (entry : string * JsVal) : M unit :=
  let (title, details) := entry in
  scoreValue <- get details "score" ;;
  scoreColor <- scoreColor scoreValue ;;
  badge <- percent scoreValue ;;
  feedback <- get details "feedback" ;;
  feedbackText <- toString feedback ;;
  on scorecard_container
    (fun e => with_children
       (children e ++ [ScoreCard title scoreColor badge feedbackText])%list
       e).

Definition appendStrength (strength : JsVal) : M unit :=
  text <- toTextContent strength ;;
  on strengths_list (fun e => with_children (children e ++ [Li text])%list e).

Definition no_strengths : string := "No specific strengths identified.".

(** [data.scorecard.k] *)
Definition scorecard_field (data : JsVal) (k : string) : M JsVal :=
  scorecard <- get data "scorecard" ;;
  get scorecard k.

Definition displayCritiqueResults (data : JsVal) : M unit :=
  on loader (with_display "none") ;;
  on results_placeholder (with_display "none") ;;
  on images_results_section (with_display "block") ;;
  on results_content (with_display "block") ;;
  (* Store the refinement plan for the next step *)
  plan <- get data "refinement_plan" ;;
  modify (with_plan plan) ;;
  (* Populate original image *)
  image <- get data "original_image" ;;
  imageSrc <- toString image ;;
  on original_image (with_src imageSrc) ;;
  (* Show placeholder for regenerated image *)
  on regenerated_image (with_display "none") ;;
  on regenerated_image_placeholder (with_display "flex") ;;
  (* Populate header *)
  brand <- get data "brand_name" ;;
  brandText <- toString brand ;;
  on results_title (with_textContent (PStr "Critique for " :: brandText)) ;;
  overallScore <- scorecard_field data "overall_score" ;;
  overallText <- percent overallScore ;;
  on overall_score (with_textContent overallText) ;;
  overallColor <- scoreColor overallScore ;;
  on overall_score (with_backgroundColor overallColor) ;;
  (* Populate scorecard *)
  on scorecard_container (with_children []) ;;
  brand_alignment <- scorecard_field data "brand_alignment" ;;
  visual_quality <- scorecard_field data "visual_quality" ;;
  message_clarity <- scorecard_field data "message_clarity" ;;
  safety_ethics <- scorecard_field data "safety_ethics" ;;
  forEach appendScoreCard
    [ ("Brand Alignment", brand_alignment);
      ("Visual Quality", visual_quality);
      ("Message Clarity", message_clarity);
      ("Safety & Ethics", safety_ethics) ] ;;
  (* Populate strengths *)
  on strengths_list (with_children []) ;;
  strengths <- scorecard_field data "strengths" ;;
  nonEmpty <- (if ToBoolean strengths then length_positive strengths
               else ret false) ;;
  (if (nonEmpty : bool) then
     match strengths with
     | JArr items => forEach appendStrength items
     | _ => throw (Engine (NotAFunction "forEach"))
     end
   else
     on strengths_list (with_children [Li [PStr no_strengths]])) ;;
  (* Populate refinement plan *)
  planValue <- get data "refinement_plan" ;;
  planText <- toTextContent planValue ;;
  on refinement_plan_text (with_textContent planText) ;;
  (* Show the regenerate button *)
  on regenerate_button (with_display "block").

Definition displayRegeneratedImage (imageUrl : JsVal) : M unit :=
  on regenerated_image_loader (with_display "none") ;;
  on regenerated_image_placeholder (with_display "none") ;;
  imageSrc <- toString imageUrl ;;
  on regenerated_image (with_src imageSrc) ;;
  on regenerated_image (with_display "block").

(** ** Requests and their settlement *)

(** How a [fetch] settles: the promise rejects, or a response arrives with
    its status and its body, [None] when [response.json()] rejects. *)
Inductive FetchOutcome : Type :=
| Rejected (message : string)
| Responded (status : nat) (body : option JsVal).

(** [response.ok] *)
Definition response_ok (status : nat) : bool :=
  (200 <=? status)%nat && (status <=? 299)%nat.

(** [await response.json()] *)
Definition json (body : option JsVal) : M JsVal :=
  match body with
  | Some v => ret v
  | None => throw (Engine JsonSyntax)
  end.

Definition http_error (status : nat) : string :=
  "HTTP error! Status: " ++ NilZero.string_of_uint (Nat.to_uint status).

(** [if (!response.ok) { ... throw new Error(errorData.detail || ...) }] *)
Definition check_ok (status : nat) (body : option JsVal) : M unit :=
  if negb (response_ok status) then
    errorData <- json body ;;
    detail <- get errorData "detail" ;;
    message <- toString (js_or detail (JStr (http_error status))) ;;
    throw (Error_ message)
  else ret tt.

Definition evaluation_prefix : string := "An error occurred during evaluation: ".
Definition evaluation_label : string := "Error during evaluation API call:".
Definition regeneration_label : string := "Error during regeneration API call:".
Definition no_candidate : string := "Please select an image first.".
Definition refusal : string := "No refinement plan available to generate from.".

(** The submit handler up to its [await fetch]. *)
Definition submit_click : M unit :=
  file <- read imageFile ;;
  match file with
  | None => alert no_candidate
  | Some image =>
      showLoadingState ;;
      fetch (Evaluate image)
  end.

(** The submit handler from the settlement of [fetch] on. *)
Definition submit_settle (r : FetchOutcome) : M unit :=
  try_catch
    (match r with
     | Rejected message => throw (NetworkFailure message)
     | Responded status body =>
         check_ok status body ;;
         data <- json body ;;
         displayCritiqueResults data
     end)
    (fun error =>
       console_error evaluation_label error ;;
       showErrorState (PStr evaluation_prefix :: error_message error)).

(** The regenerate handler up to its [await fetch]. *)
Definition regenerate_click : M unit :=
  plan <- read currentRefinementPlan ;;
  if negb (ToBoolean plan) then
    alert refusal
  else
    on regenerated_image_loader (with_display "flex") ;;
    on regenerated_image (with_display "none") ;;
    on regenerate_button (with_disabled true) ;;
    fetch (Regenerate (JObj [("refinement_plan", plan)])).

(** The regenerate handler from the settlement of [fetch] on. *)
Definition regenerate_settle (r : FetchOutcome) : M unit :=
  try_finally
    (try_catch
       (match r with
        | Rejected message => throw (NetworkFailure message)
        | Responded status body =>
            check_ok status body ;;
            data <- json body ;;
            url <- get data "regenerated_image_url" ;;
            displayRegeneratedImage url
        end)
       (fun error =>
          console_error regeneration_label error))
    (on regenerated_image_loader (with_display "none") ;;
     on regenerate_button (with_disabled false)).

(** ** Events

    Between two events the script runs to completion.  A click reaches its
    handler only on a button that is not disabled; a settlement needs a
    request in flight. *)

Inductive Event : Type :=
| ChangeFile (file : option File)      (* change on the picker, files[0] *)
| DragOver
| DragLeave
| DropFile (file : option File)        (* drop on the upload area, files[0] *)
| ClickSubmit
| EvaluateSettles (r : FetchOutcome)
| ClickRegenerate
| RegenerateSettles (r : FetchOutcome).

Definition handler (ev : Event) : M unit :=
  match ev with
  | ChangeFile None => ret tt
  | ChangeFile (Some file) => handleFile file
  | DragOver => on upload_area (with_drag_over true)
  | DragLeave => on upload_area (with_drag_over false)
  | DropFile file =>
      on upload_area (with_drag_over false) ;;
      match file with
      | None => ret tt
      | Some f => handleFile f
      end
  | ClickSubmit => submit_click
  | EvaluateSettles r => modify settled_evaluation ;; submit_settle r
  | ClickRegenerate => regenerate_click
  | RegenerateSettles r => modify settled_regeneration ;; regenerate_settle r
  end.

Definition can_occur (ev : Event) (st : State) : bool :=
  match ev with
  | ClickSubmit => negb (disabled (dom st submit_button))
  | ClickRegenerate => negb (disabled (dom st regenerate_button))
  | EvaluateSettles _ => negb (Nat.eqb (evaluations_in_flight st) 0)
  | RegenerateSettles _ => negb (Nat.eqb (regenerations_in_flight st) 0)
  | _ => true
  end.

(** One event.  [None]: the event cannot occur in this state, or its
    handler reaches a conversion the embedding does not expand.  A handler
    that lets an exception escape still leaves the state it reached. *)
Definition step (ev : Event) (st : State) : option State :=
  if can_occur ev st then
    match handler ev st with
    | Returns _ st' => Some st'
    | Throws _ st' => Some st'
    | Unexpanded => None
    end
  else None.

Fixpoint run (evs : list Event) (st : State) : option State :=
  match evs with
  | [] => Some st
  | ev :: rest =>
      match step ev st with
      | Some st' => run rest st'
      | None => None
      end
  end.

(** ** Vocabulary of the specification *)

(** [v.k] as a value, for a [v] that is neither [undefined] nor [null]. *)
Definition prop (v : JsVal) (k : string) : JsVal :=
  match v with
  | JObj fields =>
      match own fields k with
      | Some x => x
      | None => JUndefined
      end
  | _ => JUndefined
  end.

Definition nullish (v : JsVal) : bool :=
  match v with
  | JUndefined | JNull => true
  | _ => false
  end.

(** The refinement plan an event delivers: the [refinement_plan] property
    of the body of a 2xx evaluation response, when that body was read. *)
Definition received_plan (ev : Event) : option JsVal :=
  match ev with
  | EvaluateSettles (Responded status (Some data)) =>
      if response_ok status && negb (nullish data)
      then Some (prop data "refinement_plan")
      else None
  | _ => None
  end.

(** The plan most recently received along a trace, starting from [p]. *)
Definition latest_plan_from (p : JsVal) (evs : list Event) : JsVal :=
  fold_left
    (fun p ev => match received_plan ev with Some v => v | None => p end)
    evs p.

Definition latest_plan (evs : list Event) : JsVal := latest_plan_from JNull evs.

(** An evaluation that fails before any rendering starts: the request is
    rejected, the status is not 2xx, or the body cannot be read. *)
Definition fails_before_rendering (r : FetchOutcome) : bool :=
  match r with
  | Rejected _ => true
  | Responded status None => true
  | Responded status (Some _) => negb (response_ok status)
  end.

(** A settlement that ended in the Failure state of the specification,
    as the page shows it: the [catch] block of the submit handler ran,
    whatever threw; the error was logged and the titled error panel is
    displayed. *)
Definition ends_in_error_panel (st st' : State) : Prop :=
  (exists e, console st' = (evaluation_label, e) :: console st)
  /\ style_display (dom st' results_placeholder) = "flex"
  /\ textContent (dom st' placeholder_title) = [PStr "Analysis Failed"].

(** The [detail] field of a response, if present: the property of that
    name of a body that is an object. *)
Definition supplied_detail (body : option JsVal) : option JsVal :=
  match body with
  | Some (JObj fields) => own fields "detail"
  | _ => None
  end.

(** Whether the message of the error thrown for a failed response can be
    built: the [detail] of the body, when there is one, converts to a
    string. *)
Definition message_converts (r : FetchOutcome) : bool :=
  match r with
  | Responded status (Some errorData) => stringifies (prop errorData "detail")
  | _ => true
  end.

(** The message the specification asks for after a failure, in its order
    of preference: the detail the server supplied; otherwise the generic
    message with the status code; otherwise, when no response arrived,
    the message of the transport error. *)
Definition claimed_message (r : FetchOutcome) : Text :=
  match r with
  | Responded status body =>
      match supplied_detail body with
      | Some detail => ToString detail
      | None => [PStr (http_error status)]
      end
  | Rejected message => [PStr message]
  end.

(** A regeneration that fails before the image is touched: the request is
    rejected, the status is not 2xx, or the body is unreadable or [null]. *)
Definition regeneration_failed (r : FetchOutcome) : bool :=
  match r with
  | Rejected _ => true
  | Responded status None => true
  | Responded status (Some data) => negb (response_ok status) || nullish data
  end.

(** ** Sample inputs *)

Definition blank : Element := mkElement "" "" [] [] false false [].
Definition blank_page : Dom := fun _ => blank.

Definition ad_jpeg : File := mkFile "ad.jpg" "image/jpeg".
Definition notes_txt : File := mkFile "notes.txt" "text/plain".

Definition dimension (score : JsNumber.number) (feedback : string) : JsVal :=
  JObj [("score", JNum score); ("feedback", JStr feedback)].

Definition scorecard_with (strengths : list (string * JsVal)) : JsVal :=
  JObj ([ ("brand_alignment", dimension JsNumber.lit_0_8 "on brand");
          ("visual_quality", dimension JsNumber.lit_0_5 "soft focus");
          ("message_clarity", dimension JsNumber.lit_0_8 "clear");
          ("safety_ethics", dimension JsNumber.lit_0_8 "safe");
          ("overall_score", JNum JsNumber.lit_0_8) ] ++ strengths)%list.

Definition critique_with (plan : string) (strengths : list (string * JsVal))
  : JsVal :=
  JObj [ ("brand_name", JStr "Nike");
         ("original_image", JStr "data:image/jpeg;base64,AAAA");
         ("refinement_plan", JStr plan);
         ("scorecard", scorecard_with strengths) ].

Definition critique_A : JsVal :=
  critique_with "plan A" [("strengths", JArr [JStr "bold"; JStr "clear"])].
Definition critique_B : JsVal := critique_with "plan B" [("strengths", JArr [])].
Definition critique_C : JsVal := critique_with "plan C" [].

Definition regenerated_ok : FetchOutcome :=
  Responded 200 (Some (JObj [("regenerated_image_url", JStr "https://x/y.png")])).

(** ** Reasoning on statements *)

(** [wpr m Qr Qt st]: from [st], if [m] returns [a] in [st'] then
    [Qr a st'], and if it throws in [st'] then [Qt st']. *)
Definition wpr {A} (m : M A) (Qr : A -> State -> Prop) (Qt : State -> Prop)
  (st : State) : Prop :=
  match m st with
  | Returns a st' => Qr a st'
  | Throws _ st' => Qt st'
  | Unexpanded => True
  end.

(** [m] leaves the observation [f] of the state as it found it. *)
Definition preserves {X A} (f : State -> X) (m : M A) : Prop :=
  forall st, wpr m (fun _ st' => f st' = f st) (fun st' => f st' = f st) st.

(** ** Observations used in the statements *)

Definition state_after (evs : list Event) : State :=
  match run evs (initial blank_page) with
  | Some st => st
  | None => initial blank_page
  end.



(** The state in which a failed evaluation leaves the page. *)
Definition error_state (e : JsError) (st : State) : State :=
  with_dom
    (upd placeholder_text
       (with_textContent (PStr evaluation_prefix :: error_message e))
       (upd placeholder_title (with_textContent [PStr "Analysis Failed"])
          (upd results_placeholder (with_display "flex")
             (upd loader (with_display "none") (dom st)))))
    (with_console evaluation_label e st).


(** The [finally] block. *)
Definition regeneration_cleanup (d : Dom) : Dom :=
  upd regenerate_button (with_disabled false)
    (upd regenerated_image_loader (with_display "none") d).

Definition strengths_shown (st : State) : list Node :=
  children (dom st strengths_list).

Definition strength_item (strength : JsVal) : Node := Li (textContentOf strength).

(** What the panel must show for a given [scorecard.strengths]. *)
Definition strengths_expected (strengths : JsVal) (shown : list Node) : Prop :=
  shown <> []
  /\ (strengths = JUndefined \/ strengths = JNull \/ strengths = JArr [] ->
      shown = [Li [PStr no_strengths]])
  /\ (forall items,
        strengths = JArr items -> items <> [] ->
        shown = map strength_item items).

(** ** Pages and renderings *)

(** Two states that no observation tells apart: the same variables, logs
    and counters, and the same element under every id. *)
Definition same_page (a b : State) : Prop :=
  imageFile a = imageFile b
  /\ currentRefinementPlan a = currentRefinementPlan b
  /\ alerts a = alerts b
  /\ console a = console b
  /\ requests a = requests b
  /\ evaluations_in_flight a = evaluations_in_flight b
  /\ regenerations_in_flight a = regenerations_in_flight b
  /\ forall id, dom a id = dom b id.

(** [wp3 m Qr Qf st]: from [st], if [m] returns [a] in [st'] then
    [Qr a st']; if it throws, or stops on a conversion that is not
    expanded, then [Qf]. *)
Definition wp3 {A} (m : M A) (Qr : A -> State -> Prop) (Qf : Prop)
  (st : State) : Prop :=
  match m st with
  | Returns a st' => Qr a st'
  | Throws _ _ => Qf
  | Unexpanded => Qf
  end.

(** [m] lets no exception out. *)
Definition never_throws {A} (m : M A) : Prop :=
  forall st, match m st with Throws _ _ => False | _ => True end.

Definition is_some {A} (o : option A) : bool :=
  match o with
  | Some _ => true
  | None => false
  end.

Definition number_of (v : JsVal) : JsNumber.number :=
  match ToNumber v with
  | Some n => n
  | None => JsNumber.NaN
  end.

(** The shapes of [scorecard.strengths] on which the strengths block
    neither throws nor needs a conversion that is not expanded: a falsy
    value, a boolean or a number, an array of items that convert to
    strings, an object without a positive [length]. *)
Definition strengths_ok (strengths : JsVal) : bool :=
  match strengths with
  | JStr s => String.eqb s ""
  | JArr items => forallb stringifies items
  | JObj fields =>
      match own fields "length" with
      | None => true
      | Some x =>
          match ToNumber x with
          | Some n =>
              match SFcompare n (S754_zero false) with
              | Some Gt => false
              | _ => true
              end
          | None => false
          end
      end
  | _ => true
  end.

(** A dimension of the scorecard that a card can be built from: it is
    there, its score is a number, a boolean, [null] or absent, and its
    feedback converts to a string. *)
Definition dimension_ok (details : JsVal) : bool :=
  negb (nullish details)
  && is_some (ToNumber (prop details "score"))
  && stringifies (prop details "feedback").

(** Response bodies that [displayCritiqueResults] renders to the end.  The
    conjuncts follow the order in which the function meets them. *)
Definition renderable (data : JsVal) : bool :=
  negb (nullish data)
  && stringifies (prop data "original_image")
  && stringifies (prop data "brand_name")
  && negb (nullish (prop data "scorecard"))
  && is_some (ToNumber (prop (prop data "scorecard") "overall_score"))
  && dimension_ok (prop (prop data "scorecard") "brand_alignment")
  && dimension_ok (prop (prop data "scorecard") "visual_quality")
  && dimension_ok (prop (prop data "scorecard") "message_clarity")
  && dimension_ok (prop (prop data "scorecard") "safety_ethics")
  && strengths_ok (prop (prop data "scorecard") "strengths")
  && stringifies (prop data "refinement_plan").

Definition card (title : string) (details : JsVal) : Node :=
  ScoreCard title
    (getScoreColor (number_of (prop details "score")))
    [PFixed0 (number_of (prop details "score"))]
    (ToString (prop details "feedback")).

Definition strengths_rendered (strengths : JsVal) : list Node :=
  match strengths with
  | JArr (x :: items) => map strength_item (x :: items)
  | _ => [Li [PStr no_strengths]]
  end.

(** The page a completed rendering of [data] makes of the page [d]. *)
Definition rendered (data : JsVal) (d : Dom) : Dom :=
  fun id =>
    match id with
    | loader => with_display "none" (d id)
    | results_placeholder => with_display "none" (d id)
    | images_results_section => with_display "block" (d id)
    | results_content => with_display "block" (d id)
    | original_image =>
        with_src (ToString (prop data "original_image")) (d id)
    | regenerated_image => with_display "none" (d id)
    | regenerated_image_placeholder => with_display "flex" (d id)
    | results_title =>
        with_textContent
          (PStr "Critique for " :: ToString (prop data "brand_name")) (d id)
    | overall_score =>
        with_backgroundColor
          (getScoreColor
             (number_of (prop (prop data "scorecard") "overall_score")))
          (with_textContent
             [PFixed0 (number_of (prop (prop data "scorecard") "overall_score"))]
             (d id))
    | scorecard_container =>
        with_children
          [ card "Brand Alignment" (prop (prop data "scorecard") "brand_alignment");
            card "Visual Quality" (prop (prop data "scorecard") "visual_quality");
            card "Message Clarity" (prop (prop data "scorecard") "message_clarity");
            card "Safety & Ethics" (prop (prop data "scorecard") "safety_ethics") ]
          (d id)
    | strengths_list =>
        with_children
          (strengths_rendered (prop (prop data "scorecard") "strengths")) (d id)
    | refinement_plan_text =>
        with_textContent (textContentOf (prop data "refinement_plan")) (d id)
    | regenerate_button => with_display "block" (d id)
    | _ => d id
    end.

Definition rendered_state (data : JsVal) (st : State) : State :=
  with_plan (prop data "refinement_plan") (with_dom (rendered data (dom st)) st).

(** A file that passes the test of [handleFile]. *)
Definition is_image (file : File) : bool := String.prefix "image/" (type file).

(** The rank of a score colour, worst first. *)
Definition color_rank (color : string) : nat :=
  if String.eqb color success_color then 2
  else if String.eqb color warning_color then 1
  else 0.

(** An event that makes an image file the candidate. *)
Definition selects_image (ev : Event) : bool :=
  match ev with
  | ChangeFile (Some file) | DropFile (Some file) => is_image file
  | _ => false
  end.

(** * Properties *)

(** ** Facts on binary64 numbers *)

Section Binary64.
Import JsNumber.

Lemma digits2_pos_bounds (m : positive) :
  2 ^ (Zpos (digits2_pos m) - 1) <= Zpos m < 2 ^ Zpos (digits2_pos m).
Proof.
  induction m as [p IH | p IH | ]; cbn [digits2_pos].
  - rewrite Pos2Z.inj_succ, Z.pow_succ_r by lia.
    replace (Z.succ (Zpos (digits2_pos p)) - 1)
      with (Z.succ (Zpos (digits2_pos p) - 1)) by lia.
    rewrite Z.pow_succ_r by lia. lia.
  - rewrite Pos2Z.inj_succ, Z.pow_succ_r by lia.
    replace (Z.succ (Zpos (digits2_pos p)) - 1)
      with (Z.succ (Zpos (digits2_pos p) - 1)) by lia.
    rewrite Z.pow_succ_r by lia. lia.
  - cbn. lia.
Qed.

(** A valid finite number is normal (53 significant bits) or sits at the
    smallest exponent with at most 53 bits. *)
Lemma bounded_cases (m : positive) (e : Z) :
  bounded prec emax m e = true ->
  (2 ^ 52 <= Zpos m < 2 ^ 53 /\ -1074 <= e) \/ (Zpos m < 2 ^ 53 /\ e = -1074).
Proof.
  unfold bounded, canonical_mantissa, fexp, SpecFloat.emin, prec, emax.
  intros H. apply andb_true_iff in H. destruct H as [H _].
  apply Z.eqb_eq in H.
  pose proof (digits2_pos_bounds m) as B.
  set (d := Zpos (digits2_pos m)) in *.
  assert (Hd : 0 < d) by (unfold d; lia).
  destruct (Z.max_spec (d + e - 53) (3 - 1024 - 53)) as [[Hlt Hm] | [Hle Hm]];
    rewrite Hm in H.
  - right. split; [ | lia ].
    assert (d <= 53) by lia.
    assert (2 ^ d <= 2 ^ 53) by (apply Z.pow_le_mono_r; lia). lia.
  - left. assert (d = 53) by lia.
    replace (d - 1) with 52 in B by lia. replace d with 53 in B by lia.
    lia.
Qed.

Lemma Zpos_pow2 (p : positive) : Zpos (2 ^ p) = 2 ^ Zpos p.
Proof. rewrite Pos2Z.inj_pow. reflexivity. Qed.

(** Comparing a valid positive number with a literal in the binade
    [0.5, 1) decides the order of the exact values against any rational
    [a/b] of [0.5, 1] that the literal's mantissa [M] is the ceiling of. *)
Lemma ge_literal_exact (a b M m : positive) (e : Z) :
  bounded prec emax m e = true ->
  (Zpos b <= 2 * Zpos a) -> (Zpos a <= Zpos b) ->
  (forall k : Z, Zpos a * 2 ^ 53 <= k * Zpos b <-> Zpos M <= k) ->
  ge (S754_finite false m e) (S754_finite false M (-53)) = true
  <-> (Zpos a # b <= F2Q false m e)%Q.
Proof.
  intros Hb Hlo Hhi HM.
  apply bounded_cases in Hb.
  unfold ge, SFcompare, Qle.
  destruct (Z.compare_spec e (-53)) as [He | He | He].
  - subst e. rewrite Pos.compare_cont_spec.
    cbn [Pos.switch_Eq F2Q Qnum Qden]. rewrite Zpos_pow2.
    specialize (HM (Zpos m)).
    destruct (Pos.compare_spec m M) as [Hc | Hc | Hc]; split; intros H;
      try reflexivity; try discriminate; lia.
  - split; [ discriminate | intros H; exfalso ].
    destruct e as [ | p | p ]; try lia.
    cbn [F2Q Qnum Qden] in H. rewrite Zpos_pow2 in H.
    assert (Hp : 54 <= Zpos p) by lia.
    assert (2 ^ 54 <= 2 ^ Zpos p) by (apply Z.pow_le_mono_r; lia).
    assert (Zpos m < 2 ^ 53) by (destruct Hb as [[? ?] | [? ?]]; lia).
    change (2 ^ 54) with (2 * 2 ^ 53) in *.
    nia.
  - split; [ intros _ | reflexivity ].
    destruct Hb as [[[Hm _] _] | [_ He']]; [ | lia ].
    destruct e as [ | p | p ]; cbn [F2Q Qnum Qden].
    + nia.
    + rewrite Zpos_pow2.
      assert (0 < 2 ^ Zpos p) by (apply Z.pow_pos_nonneg; lia).
      assert (1 <= Zpos m * 2 ^ Zpos p) by nia. nia.
    + rewrite Zpos_pow2.
      assert (2 ^ Zpos p <= 2 ^ 52) by (apply Z.pow_le_mono_r; lia). nia.
Qed.

Lemma ge_0_8_exact (m : positive) (e : Z) :
  bounded prec emax m e = true ->
  ge (S754_finite false m e) lit_0_8 = true <-> (4 # 5 <= F2Q false m e)%Q.
Proof.
  intros Hb. apply (ge_literal_exact 4 5); try assumption; try lia.
Qed.

Lemma ge_0_5_exact (m : positive) (e : Z) :
  bounded prec emax m e = true ->
  ge (S754_finite false m e) lit_0_5 = true <-> (1 # 2 <= F2Q false m e)%Q.
Proof.
  intros Hb. apply (ge_literal_exact 1 2); try assumption; try lia.
Qed.

Lemma F2Q_negative (m : positive) (e : Z) : (F2Q true m e < 0)%Q.
Proof.
  unfold Qlt. destruct e as [ | p | p ]; cbn [F2Q Qnum Qden]; lia.
Qed.

Lemma colors_distinct :
  success_color <> warning_color /\ success_color <> danger_color
  /\ warning_color <> danger_color.
Proof. repeat split; discriminate. Qed.

End Binary64.

(** ** The score colour (getScoreColor) *)

Section ScoreColor.
Import JsNumber.

Lemma getScoreColor_cases (s : number) :
  (ge s lit_0_8 = true /\ getScoreColor s = success_color)
  \/ (ge s lit_0_8 = false /\ ge s lit_0_5 = true
      /\ getScoreColor s = warning_color)
  \/ (ge s lit_0_8 = false /\ ge s lit_0_5 = false
      /\ getScoreColor s = danger_color).
Proof.
  unfold getScoreColor.
  destruct (ge s lit_0_8); [ left; auto | ].
  destruct (ge s lit_0_5); [ right; left; auto | right; right; auto ].
Qed.

(** On a valid positive finite number the two tests of [getScoreColor]
    compare the exact value with 4/5 and 1/2. *)
Lemma getScoreColor_positive (m : positive) (e : Z) :
  bounded prec emax m e = true ->
  let s := S754_finite false m e in
  (getScoreColor s = success_color <-> (4 # 5 <= F2Q false m e)%Q)
  /\ (getScoreColor s = warning_color <->
      (1 # 2 <= F2Q false m e)%Q /\ (F2Q false m e < 4 # 5)%Q)
  /\ (getScoreColor s = danger_color <-> (F2Q false m e < 1 # 2)%Q).
Proof.
  intros Hb s.
  pose proof (ge_0_8_exact m e Hb) as H8.
  pose proof (ge_0_5_exact m e Hb) as H5.
  fold s in H8, H5.
  destruct colors_distinct as (Dsw & Dsd & Dwd).
  assert (Hmono : (1 # 2 <= 4 # 5)%Q) by (unfold Qle; cbn; lia).
  destruct (getScoreColor_cases s) as [(G8 & C) | [(G8 & G5 & C) | (G8 & G5 & C)]];
    rewrite C.
  - apply H8 in G8. split; [ | split ].
    + split; auto.
    + split; [ congruence | intros [_ H] ].
      exfalso. exact (Qlt_not_le _ _ H G8).
    + split; [ congruence | intros H ].
      exfalso. apply (Qlt_not_le _ _ H). exact (Qle_trans _ _ _ Hmono G8).
  - apply H5 in G5.
    assert (N8 : ~ (4 # 5 <= F2Q false m e)%Q)
      by (intros H; apply H8 in H; congruence).
    apply Qnot_le_lt in N8. split; [ | split ].
    + split; [ congruence | intros H ].
      exfalso. exact (Qlt_not_le _ _ N8 H).
    + split; auto.
    + split; [ congruence | intros H ].
      exfalso. exact (Qlt_not_le _ _ H G5).
  - assert (N5 : ~ (1 # 2 <= F2Q false m e)%Q)
      by (intros H; apply H5 in H; congruence).
    apply Qnot_le_lt in N5. split; [ | split ].
    + split; [ congruence | intros H ].
      exfalso. apply (Qlt_not_le _ _ N5). exact (Qle_trans _ _ _ Hmono H).
    + split; [ congruence | intros [H _] ].
      exfalso. exact (Qlt_not_le _ _ N5 H).
    + split; auto.
Qed.

(** [C1] For every score [s] that is a number (any binary64 value but NaN,
    inside or outside [0,1]), [getScoreColor s] is the success colour iff
    the value of [s] is at least 0.8, the warning colour iff it is at least
    0.5 and below 0.8, the danger colour iff it is below 0.5; the literals
    0.8 and 0.5 themselves classify as success and warning. *)
Theorem getScoreColor_thresholds (s : number) :
  is_binary64 s = true -> s <> NaN ->
  (getScoreColor s = success_color <-> at_least (4 # 5) s)
  /\ (getScoreColor s = warning_color <->
      at_least (1 # 2) s /\ below s (4 # 5))
  /\ (getScoreColor s = danger_color <-> below s (1 # 2))
  /\ getScoreColor lit_0_8 = success_color
  /\ getScoreColor lit_0_5 = warning_color.
Proof.
  intros Hv Hn.
  destruct colors_distinct as (Dsw & Dsd & Dwd).
  assert (Hb : getScoreColor lit_0_8 = success_color
               /\ getScoreColor lit_0_5 = warning_color)
    by (split; reflexivity).
  destruct s as [sg | sg | | sg m e].
  - (* zero *)
    change (getScoreColor (S754_zero sg)) with danger_color.
    cbn [at_least below]. unfold Qle, Qlt. cbn [Qnum Qden].
    split; [ | split; [ | split; [ | exact Hb ] ] ].
    + split; [ congruence | lia ].
    + split; [ congruence | lia ].
    + split; [ lia | reflexivity ].
  - (* infinity *)
    destruct sg.
    + change (getScoreColor (S754_infinity true)) with danger_color.
      cbn [at_least below].
      split; [ | split; [ | split; [ | exact Hb ] ] ].
      * split; [ congruence | discriminate ].
      * split; [ congruence | intros [H _]; discriminate ].
      * split; reflexivity.
    + change (getScoreColor (S754_infinity false)) with success_color.
      cbn [at_least below].
      split; [ | split; [ | split; [ | exact Hb ] ] ].
      * split; reflexivity.
      * split; [ congruence | intros [_ H]; discriminate ].
      * split; [ congruence | discriminate ].
  - (* NaN is not a score *)
    exfalso. apply Hn. reflexivity.
  - destruct sg.
    + (* negative *)
      change (getScoreColor (S754_finite true m e)) with danger_color.
      cbn [at_least below].
      pose proof (F2Q_negative m e) as Hneg.
      assert (L5 : (F2Q true m e < 1 # 2)%Q)
        by (apply (Qlt_trans _ 0); [ exact Hneg | reflexivity ]).
      assert (L8 : (F2Q true m e < 4 # 5)%Q)
        by (apply (Qlt_trans _ 0); [ exact Hneg | reflexivity ]).
      split; [ | split; [ | split; [ | exact Hb ] ] ].
      * split; [ congruence | intros H ].
        exfalso. exact (Qlt_not_le _ _ L8 H).
      * split; [ congruence | intros [H _] ].
        exfalso. exact (Qlt_not_le _ _ L5 H).
      * split; auto.
    + cbn [at_least below].
      destruct (getScoreColor_positive m e Hv) as (P1 & P2 & P3).
      split; [ exact P1 | split; [ exact P2 | split; [ exact P3 | exact Hb ] ] ].
Qed.

(** [C1], at the two boundary values and at an interior one. *)
Lemma getScoreColor_thresholds_witness :
  (getScoreColor lit_0_8 = success_color <-> at_least (4 # 5) lit_0_8)
  /\ (getScoreColor lit_0_5 = warning_color <-> at_least (1 # 2) lit_0_5
      /\ below lit_0_5 (4 # 5)).
Proof.
  split.
  - apply (getScoreColor_thresholds lit_0_8); [ reflexivity | discriminate ].
  - apply (getScoreColor_thresholds lit_0_5); [ reflexivity | discriminate ].
Defined.

(** [C9] [getScoreColor] is total on numbers: every input, NaN, the
    infinities and values outside [0,1] included, gets exactly one of the
    three colours, and an input for which neither [s >= 0.8] nor [s >= 0.5]
    holds gets the danger colour, as NaN does. *)
Theorem getScoreColor_total (s : number) :
  (getScoreColor s = success_color \/ getScoreColor s = warning_color
   \/ getScoreColor s = danger_color)
  /\ (success_color <> warning_color /\ success_color <> danger_color
      /\ warning_color <> danger_color)
  /\ (ge s lit_0_8 = false -> ge s lit_0_5 = false ->
      getScoreColor s = danger_color)
  /\ ge NaN lit_0_8 = false /\ ge NaN lit_0_5 = false
  /\ getScoreColor NaN = danger_color.
Proof.
  split; [ | split; [ exact colors_distinct | split ] ].
  - destruct (getScoreColor_cases s) as [(_ & C) | [(_ & _ & C) | (_ & _ & C)]];
      auto.
  - intros G8 G5. unfold getScoreColor. rewrite G8, G5. reflexivity.
  - repeat split.
Qed.

(** [C9], at NaN, at minus infinity and at 2 (outside [0,1]). *)
Lemma getScoreColor_total_witness :
  getScoreColor NaN = danger_color
  /\ getScoreColor (S754_infinity true) = danger_color
  /\ getScoreColor (S754_finite false 4503599627370496 (-51)) = success_color.
Proof.
  split; [ | split; [ | reflexivity ] ].
  - apply (getScoreColor_total NaN); reflexivity.
  - apply (getScoreColor_total (S754_infinity true)); reflexivity.
Defined.

End ScoreColor.

(** ** Rules for statements *)

Lemma wpr_bind {A B} (m : M A) (k : A -> M B) Qr Qt st :
  wpr m (fun a st' => wpr (k a) Qr Qt st') Qt st -> wpr (bind m k) Qr Qt st.
Proof. unfold wpr, bind. destruct (m st); tauto. Qed.

Lemma wpr_mono {A} (m : M A) (Qr Qr' : A -> State -> Prop)
  (Qt Qt' : State -> Prop) st :
  (forall a s, Qr a s -> Qr' a s) -> (forall s, Qt s -> Qt' s) ->
  wpr m Qr Qt st -> wpr m Qr' Qt' st.
Proof. unfold wpr. intros Hr Ht. destruct (m st); auto. Qed.

Section Rules.
Context {X : Type} (f : State -> X).

(** A statement that preserves [f] carries any fact on [f] to its exit. *)
Lemma wpr_preserved {A} (m : M A) (P : X -> Prop) st :
  preserves f m -> P (f st) ->
  wpr m (fun _ st' => P (f st')) (fun st' => P (f st')) st.
Proof.
  intros Hm HP. specialize (Hm st). unfold wpr in *.
  destruct (m st); auto; rewrite Hm; exact HP.
Qed.

Lemma preserves_ret {A} (a : A) : preserves f (ret a).
Proof. intros st. reflexivity. Qed.

Lemma preserves_throw {A} (e : JsError) : preserves f (@throw A e).
Proof. intros st. reflexivity. Qed.

Lemma preserves_unexpanded {A} : preserves f (@unexpanded A).
Proof. intros st. exact I. Qed.

Lemma preserves_read {A} (g : State -> A) : preserves f (read g).
Proof. intros st. reflexivity. Qed.

Lemma preserves_modify (g : State -> State) :
  (forall st, f (g st) = f st) -> preserves f (modify g).
Proof. intros H st. apply H. Qed.

Lemma preserves_bind {A B} (m : M A) (k : A -> M B) :
  preserves f m -> (forall a, preserves f (k a)) -> preserves f (bind m k).
Proof.
  intros Hm Hk st. specialize (Hm st). unfold wpr, bind in *.
  destruct (m st) as [a st1 | e st1 | ]; auto.
  specialize (Hk a st1). unfold wpr in Hk.
  destruct (k a st1); congruence.
Qed.

Lemma preserves_try_catch (body : M unit) (h : JsError -> M unit) :
  preserves f body -> (forall e, preserves f (h e)) ->
  preserves f (try_catch body h).
Proof.
  intros Hb Hh st. specialize (Hb st). unfold wpr, try_catch in *.
  destruct (body st) as [a st1 | e st1 | ]; auto.
  specialize (Hh e st1). unfold wpr in Hh.
  destruct (h e st1); congruence.
Qed.

Lemma preserves_try_finally (body final : M unit) :
  preserves f body -> preserves f final ->
  preserves f (try_finally body final).
Proof.
  intros Hb Hf st. specialize (Hb st). unfold wpr, try_finally in *.
  destruct (body st) as [a st1 | e st1 | ]; auto;
    specialize (Hf st1); unfold wpr in Hf;
    destruct (final st1); congruence.
Qed.

Lemma preserves_forEach {A} (g : A -> M unit) (l : list A) :
  (forall a, preserves f (g a)) -> preserves f (forEach g l).
Proof.
  intros Hg. induction l as [ | a l IH ]; cbn [forEach].
  - apply preserves_ret.
  - apply preserves_bind; auto.
Qed.

Lemma preserves_get (v : JsVal) (k : string) : preserves f (get v k).
Proof.
  intros st. unfold wpr, get.
  destruct v as [ | | b | n | s | items | fields ]; try reflexivity.
  destruct (own fields k); reflexivity.
Qed.

Lemma preserves_toString (v : JsVal) : preserves f (toString v).
Proof.
  intros st. unfold wpr, toString.
  destruct (stringifies v); [ reflexivity | exact I ].
Qed.

Lemma preserves_toTextContent (v : JsVal) : preserves f (toTextContent v).
Proof.
  intros st. unfold wpr, toTextContent.
  destruct (stringifies v); [ reflexivity | exact I ].
Qed.

Lemma preserves_json (body : option JsVal) : preserves f (json body).
Proof. intros st. destruct body; reflexivity. Qed.

Lemma preserves_percent (v : JsVal) : preserves f (percent v).
Proof.
  intros st. unfold wpr, percent. destruct (ToNumber v); [ reflexivity | exact I ].
Qed.

Lemma preserves_scoreColor (v : JsVal) : preserves f (scoreColor v).
Proof.
  intros st. unfold wpr, scoreColor.
  destruct (ToNumber v); [ reflexivity | exact I ].
Qed.

Lemma preserves_length_positive (v : JsVal) : preserves f (length_positive v).
Proof.
  intros st. unfold wpr, length_positive.
  destruct v as [ | | b | n | s | items | fields ]; try reflexivity.
  destruct (own fields "length") as [x | ]; [ | reflexivity ].
  destruct (ToNumber x); [ reflexivity | exact I ].
Qed.

End Rules.

Lemma wpr_modify (g : State -> State) (Qr : unit -> State -> Prop) Qt st :
  Qr tt (g st) -> wpr (modify g) Qr Qt st.
Proof. intros H. exact H. Qed.

Lemma wpr_get (v : JsVal) (k : string) (Qr : JsVal -> State -> Prop) Qt st :
  (nullish v = true -> Qt st) ->
  (nullish v = false -> Qr (prop v k) st) ->
  wpr (get v k) Qr Qt st.
Proof.
  intros Hn Hv. unfold wpr.
  destruct v as [ | | b | n | s | items | fields ];
    try (apply Hn; reflexivity); try (apply Hv; reflexivity).
  specialize (Hv eq_refl). cbn [get prop] in *.
  destruct (own fields k); exact Hv.
Qed.

Lemma wpr_toString (v : JsVal) (Qr : Text -> State -> Prop) Qt st :
  (stringifies v = true -> Qr (ToString v) st) ->
  wpr (toString v) Qr Qt st.
Proof.
  intros H. unfold wpr, toString.
  destruct (stringifies v); [ apply H; reflexivity | exact I ].
Qed.

Lemma wpr_toTextContent (v : JsVal) (Qr : Text -> State -> Prop) Qt st :
  (stringifies v = true -> Qr (textContentOf v) st) ->
  wpr (toTextContent v) Qr Qt st.
Proof.
  intros H. unfold wpr, toTextContent.
  destruct (stringifies v); [ apply H; reflexivity | exact I ].
Qed.

(** Skipping a statement whose effect does not matter to a postcondition
    that holds of every state on a throw. *)
Lemma wpr_skip {A B} (m : M A) (k : A -> M B) Qr st :
  (forall a st1, wpr (k a) Qr (fun _ => True) st1) ->
  wpr (bind m k) Qr (fun _ => True) st.
Proof.
  intros H. unfold wpr, bind in *. destruct (m st) as [a st1 | | ]; auto.
  apply H.
Qed.

(** [frame] proves [preserves f m] by following the structure of [m];
    each state update is checked by evaluating [f] on it. *)
Ltac frame :=
  repeat first
    [ apply preserves_ret
    | apply preserves_throw
    | apply preserves_unexpanded
    | apply preserves_read
    | apply preserves_get
    | apply preserves_toString
    | apply preserves_toTextContent
    | apply preserves_json
    | apply preserves_percent
    | apply preserves_scoreColor
    | apply preserves_length_positive
    | apply preserves_bind; [ | intros ? ]
    | apply preserves_try_catch; [ | intros ? ]
    | apply preserves_try_finally
    | apply preserves_forEach; intros ?
    | apply preserves_modify; intros ?; reflexivity
    | progress cbv beta
    | match goal with
      | |- preserves _ (match ?x with _ => _ end) => destruct x
      | |- preserves _ (if ?x then _ else _) => destruct x
      end ].

(** What each function leaves alone. *)

Lemma handleFile_keeps_plan (file : File) :
  preserves currentRefinementPlan (handleFile file).
Proof. unfold handleFile. frame. Qed.

Lemma showErrorState_keeps_plan (message : Text) :
  preserves currentRefinementPlan (showErrorState message).
Proof. unfold showErrorState. frame. Qed.

Lemma submit_click_keeps_plan : preserves currentRefinementPlan submit_click.
Proof. unfold submit_click, showLoadingState. frame. Qed.

Lemma regenerate_click_keeps_plan :
  preserves currentRefinementPlan regenerate_click.
Proof. unfold regenerate_click. frame. Qed.

Lemma check_ok_preserves {X} (f : State -> X) status body :
  preserves f (check_ok status body).
Proof. unfold check_ok. frame. Qed.

Lemma regenerate_settle_keeps_plan (r : FetchOutcome) :
  preserves currentRefinementPlan (regenerate_settle r).
Proof.
  unfold regenerate_settle, displayRegeneratedImage. frame.
  all: apply check_ok_preserves.
Qed.

(** [displayCritiqueResults] writes the plan once, before anything that
    can throw on the scorecard, and nothing after that touches it. *)
Lemma displayCritiqueResults_plan (data : JsVal) (st : State) :
  let after st' :=
    currentRefinementPlan st' =
      if nullish data then currentRefinementPlan st
      else prop data "refinement_plan" in
  wpr (displayCritiqueResults data) (fun _ => after) after st.
Proof.
  intros after. unfold displayCritiqueResults.
  do 4 (apply wpr_bind; apply wpr_modify; cbv beta).
  apply wpr_bind. apply wpr_get; intros Hn.
  - unfold after. rewrite Hn. reflexivity.
  - apply wpr_bind. apply wpr_modify. cbv beta.
    apply (wpr_preserved currentRefinementPlan _
             (fun p => p = if nullish data then currentRefinementPlan st
                           else prop data "refinement_plan")).
    + unfold scorecard_field, appendScoreCard, appendStrength. frame.
    + rewrite Hn. reflexivity.
Qed.

Ltac unfold_script :=
  unfold handler, submit_settle, regenerate_settle, submit_click,
    regenerate_click, check_ok, displayCritiqueResults,
    displayRegeneratedImage, showErrorState, showLoadingState, handleFile,
    scorecard_field, appendScoreCard, appendStrength.

Lemma wpr_try_catch_preserved {X} (f : State -> X) (P : X -> Prop)
  (body : M unit) (h : JsError -> M unit) (st : State) :
  wpr body (fun _ s => P (f s)) (fun s => P (f s)) st ->
  (forall e, preserves f (h e)) ->
  wpr (try_catch body h) (fun _ s => P (f s)) (fun s => P (f s)) st.
Proof.
  intros Hb Hh. unfold wpr, try_catch in *.
  destruct (body st) as [a st1 | e st1 | ]; auto.
  specialize (Hh e st1). unfold wpr in Hh.
  destruct (h e st1); auto; rewrite Hh; exact Hb.
Qed.

(** A response that is not 2xx never gets past the status check. *)
Lemma check_ok_not_ok status body (Qr : unit -> State -> Prop)
  (Qt : State -> Prop) st :
  response_ok status = false -> Qt st -> wpr (check_ok status body) Qr Qt st.
Proof.
  intros Hok HQ. unfold check_ok. rewrite Hok. cbn [negb].
  unfold wpr, bind, json.
  destruct body as [errorData | ]; [ | exact HQ ].
  cbn [ret].
  assert (Hstr : forall v,
    match
      match toString v st with
      | Returns a st' => throw (Error_ a) st'
      | Throws e st' => Throws e st'
      | Unexpanded => Unexpanded
      end
    with
    | Returns a st' => Qr a st'
    | Throws _ st' => Qt st'
    | Unexpanded => True
    end).
  { intros v. unfold toString. destruct (stringifies v); [ exact HQ | exact I ]. }
  destruct errorData as [ | | b | n | s | items | fields ];
    cbn [get throw ret]; try exact HQ.
  destruct (own fields "detail"); cbv beta iota delta [ret]; apply Hstr.
Qed.

Lemma check_ok_ok status body st :
  response_ok status = true -> check_ok status body st = Returns tt st.
Proof. intros Hok. unfold check_ok. rewrite Hok. reflexivity. Qed.

(** ** The refinement plan *)

Lemma submit_settle_plan (r : FetchOutcome) (st : State) :
  let after st' :=
    currentRefinementPlan st' =
      match received_plan (EvaluateSettles r) with
      | Some v => v
      | None => currentRefinementPlan st
      end in
  wpr (submit_settle r) (fun _ => after) after st.
Proof.
  intros after. unfold submit_settle.
  apply (wpr_try_catch_preserved currentRefinementPlan
           (fun p => p = match received_plan (EvaluateSettles r) with
                         | Some v => v
                         | None => currentRefinementPlan st
                         end)).
  - destruct r as [message | status body].
    + reflexivity.
    + destruct (response_ok status) eqn:Hok.
      * apply wpr_bind. unfold wpr at 1. rewrite check_ok_ok by assumption.
        destruct body as [data | ]; [ | reflexivity ].
        apply wpr_bind. unfold wpr at 1. cbn [json ret].
        pose proof (displayCritiqueResults_plan data st) as H.
        cbv zeta in H. cbn [received_plan]. rewrite Hok.
        destruct (nullish data); exact H.
      * apply wpr_bind. apply check_ok_not_ok; [ assumption | ].
        cbn [received_plan]. rewrite Hok. destruct body; reflexivity.
  - intros e. unfold showErrorState. frame.
Qed.

Lemma handler_plan (ev : Event) (st : State) :
  let after st' :=
    currentRefinementPlan st' =
      match received_plan ev with
      | Some v => v
      | None => currentRefinementPlan st
      end in
  wpr (handler ev) (fun _ => after) after st.
Proof.
  intros after.
  assert (Hkeep : forall ev', received_plan ev' = None ->
            preserves currentRefinementPlan (handler ev') ->
            wpr (handler ev')
              (fun _ st' => currentRefinementPlan st' =
                 match received_plan ev' with
                 | Some v => v
                 | None => currentRefinementPlan st
                 end)
              (fun st' => currentRefinementPlan st' =
                 match received_plan ev' with
                 | Some v => v
                 | None => currentRefinementPlan st
                 end) st).
  { intros ev' Hr Hp. rewrite Hr.
    apply (wpr_preserved currentRefinementPlan _
             (fun p => p = currentRefinementPlan st)); auto. }
  destruct ev as [file | | | file | | r | | r];
    try (apply Hkeep; [ reflexivity | unfold_script; frame ]).
  cbn [handler]. apply wpr_bind. apply wpr_modify.
  exact (submit_settle_plan r (settled_evaluation st)).
Qed.

Lemma step_plan (ev : Event) (st st' : State) :
  step ev st = Some st' ->
  currentRefinementPlan st' =
    match received_plan ev with
    | Some v => v
    | None => currentRefinementPlan st
    end.
Proof.
  unfold step. destruct (can_occur ev st); [ | discriminate ].
  pose proof (handler_plan ev st) as H. cbv zeta in H. unfold wpr in H.
  destruct (handler ev st); intros E; inversion E; subst; exact H.
Qed.

(** The stored plan is, at every moment, the plan most recently received. *)
Lemma run_plan (evs : list Event) (st st' : State) :
  run evs st = Some st' ->
  currentRefinementPlan st' = latest_plan_from (currentRefinementPlan st) evs.
Proof.
  revert st. induction evs as [ | ev evs IH ]; intros st; cbn [run].
  - intros E. inversion E. reflexivity.
  - destruct (step ev st) as [st1 | ] eqn:Hs; [ | discriminate ].
    intros E. rewrite (IH _ E). unfold latest_plan_from. cbn [fold_left].
    rewrite (step_plan _ _ _ Hs). reflexivity.
Qed.

Lemma step_preserved {X} (f : State -> X) (ev : Event) (st st' : State) :
  preserves f (handler ev) -> step ev st = Some st' -> f st' = f st.
Proof.
  intros Hp. unfold step. destruct (can_occur ev st); [ | discriminate ].
  specialize (Hp st). unfold wpr in Hp.
  destruct (handler ev st); intros E; inversion E; subst; exact Hp.
Qed.

(** What a click of the regenerate button does, in full. *)
Lemma regenerate_click_run (st : State) :
  regenerate_click st =
    if ToBoolean (currentRefinementPlan st) then
      Returns tt
        (with_request
           (Regenerate (JObj [("refinement_plan", currentRefinementPlan st)]))
           (with_dom
              (upd regenerate_button (with_disabled true)
                 (upd regenerated_image (with_display "none")
                    (upd regenerated_image_loader (with_display "flex")
                       (dom st)))) st))
    else Returns tt (with_alert refusal st).
Proof.
  unfold regenerate_click, bind, read.
  destruct (ToBoolean (currentRefinementPlan st)); reflexivity.
Qed.

(** What a click of the submit button does, in full. *)
Lemma submit_click_run (st : State) :
  submit_click st =
    match imageFile st with
    | Some image =>
        Returns tt
          (with_request (Evaluate image)
             (with_dom
                (upd regenerate_button (with_display "none")
                   (upd loader (with_display "flex")
                      (upd images_results_section (with_display "none")
                         (upd results_content (with_display "none")
                            (upd results_placeholder (with_display "none")
                               (dom st)))))) st))
    | None => Returns tt (with_alert no_candidate st)
    end.
Proof.
  unfold submit_click, bind, read. destruct (imageFile st); reflexivity.
Qed.

(** The only requests a step can add: an evaluation on a submit click with
    a candidate, a regeneration on a regenerate click with a truthy plan,
    whose body then holds that very plan. *)
Lemma step_requests (ev : Event) (st st' : State) :
  step ev st = Some st' ->
  requests st' = requests st
  \/ (exists image, ev = ClickSubmit /\ imageFile st = Some image
        /\ requests st' = Evaluate image :: requests st)
  \/ (ev = ClickRegenerate /\ ToBoolean (currentRefinementPlan st) = true
        /\ requests st' =
           Regenerate (JObj [("refinement_plan", currentRefinementPlan st)])
             :: requests st).
Proof.
  intros Hs.
  destruct ev as [file | | | file | | r | | r];
    try (left; refine (step_preserved requests _ _ _ _ Hs);
         unfold_script; solve [ frame ]).
  - revert Hs. unfold step.
    destruct (can_occur ClickSubmit st); [ | discriminate ].
    cbn [handler]. rewrite submit_click_run.
    destruct (imageFile st) as [image | ] eqn:Hf; intros Hs;
      inversion Hs; subst.
    + right. left. exists image. auto.
    + left. reflexivity.
  - revert Hs. unfold step.
    destruct (can_occur ClickRegenerate st); [ | discriminate ].
    cbn [handler]. rewrite regenerate_click_run.
    destruct (ToBoolean (currentRefinementPlan st)) eqn:Hp; intros Hs;
      inversion Hs; subst.
    + right. right. auto.
    + left. reflexivity.
Qed.

(** [C2] Whenever a click issues a regeneration request, the
    [refinement_plan] carried by its body is the value most recently
    received in the body of a 2xx evaluation response, as it was received:
    the stored plan is that value at every moment, and the click copies it
    into the body without touching it. *)
Theorem regeneration_carries_latest_plan
  (page : Dom) (evs : list Event) (st st' : State) :
  run evs (initial page) = Some st ->
  step ClickRegenerate st = Some st' ->
  requests st' <> requests st ->
  currentRefinementPlan st = latest_plan evs
  /\ requests st' =
       Regenerate (JObj [("refinement_plan", latest_plan evs)]) :: requests st
  /\ currentRefinementPlan st' = latest_plan evs.
Proof.
  intros Hrun Hstep Hnew.
  pose proof (run_plan _ _ _ Hrun) as Hplan. cbn [initial currentRefinementPlan] in Hplan.
  fold (latest_plan evs) in Hplan.
  pose proof (step_plan _ _ _ Hstep) as Hkeep. cbn [received_plan] in Hkeep.
  destruct (step_requests _ _ _ Hstep) as [Hsame | [(image & E & _) | (_ & _ & Hreq)]].
  - contradiction.
  - discriminate E.
  - rewrite Hplan in Hreq, Hkeep. auto.
Qed.

(** [C2], after one evaluation that delivered ["plan A"]. *)
Lemma regeneration_carries_latest_plan_witness :
  requests
    (state_after [ChangeFile (Some ad_jpeg); ClickSubmit;
                  EvaluateSettles (Responded 200 (Some critique_A));
                  ClickRegenerate])
  = [Regenerate (JObj [("refinement_plan", JStr "plan A")]); Evaluate ad_jpeg].
Proof.
  pose (evs := [ChangeFile (Some ad_jpeg); ClickSubmit;
                EvaluateSettles (Responded 200 (Some critique_A))]).
  destruct (regeneration_carries_latest_plan blank_page evs
              (state_after evs) (state_after (evs ++ [ClickRegenerate])))
    as (_ & H & _).
  - vm_compute. reflexivity.
  - vm_compute. reflexivity.
  - vm_compute. discriminate.
  - exact H.
Defined.

Lemma step_wpr (ev : Event) (st st' : State) (Q : State -> Prop) :
  wpr (handler ev) (fun _ => Q) Q st -> step ev st = Some st' -> Q st'.
Proof.
  unfold step, wpr. destruct (can_occur ev st); [ | discriminate ].
  destruct (handler ev st); intros H E; inversion E; subst; exact H.
Qed.

Lemma step_can_occur (ev : Event) (st st' : State) :
  step ev st = Some st' -> can_occur ev st = true.
Proof. unfold step. destruct (can_occur ev st); [ reflexivity | discriminate ]. Qed.

(** With no plan (or any falsy plan) the click only raises the prompt. *)
Lemma regenerate_click_refused (st : State) :
  ToBoolean (currentRefinementPlan st) = false ->
  regenerate_click st = Returns tt (with_alert refusal st).
Proof. intros H. rewrite regenerate_click_run, H. reflexivity. Qed.

(** As long as no plan has been received, the plan stays [null] and no
    regeneration request has left. *)
Lemma before_any_plan (evs : list Event) (st st' : State) :
  run evs st = Some st' ->
  (forall ev, In ev evs -> received_plan ev = None) ->
  currentRefinementPlan st = JNull ->
  (forall body, ~ In (Regenerate body) (requests st)) ->
  currentRefinementPlan st' = JNull
  /\ (forall body, ~ In (Regenerate body) (requests st')).
Proof.
  revert st. induction evs as [ | ev evs IH ]; intros st; cbn [run].
  - intros E _ Hp Hr. inversion E; subst. auto.
  - destruct (step ev st) as [st1 | ] eqn:Hs; [ | discriminate ].
    intros E Hnone Hp Hr.
    apply (IH st1 E).
    + intros ev' Hin. apply Hnone. right. exact Hin.
    + rewrite (step_plan _ _ _ Hs), (Hnone ev (or_introl eq_refl)). exact Hp.
    + intros body Hin.
      destruct (step_requests _ _ _ Hs)
        as [Hsame | [(image & _ & _ & Hreq) | (_ & Htruthy & _)]].
      * rewrite Hsame in Hin. exact (Hr body Hin).
      * rewrite Hreq in Hin. destruct Hin as [Hin | Hin];
          [ discriminate Hin | exact (Hr body Hin) ].
      * rewrite Hp in Htruthy. discriminate Htruthy.
Qed.

(** [C5] If the regenerate handler runs before any evaluation response has
    delivered a plan, the plan is still [null], the handler only raises
    the prompt and returns: the request log and the number of requests in
    flight are as before, and no regeneration request has ever left. *)
Theorem regeneration_refused_without_plan
  (page : Dom) (evs : list Event) (st : State) :
  run evs (initial page) = Some st ->
  (forall ev, In ev evs -> received_plan ev = None) ->
  currentRefinementPlan st = JNull
  /\ regenerate_click st = Returns tt (with_alert refusal st)
  /\ alerts (with_alert refusal st) = refusal :: alerts st
  /\ requests (with_alert refusal st) = requests st
  /\ regenerations_in_flight (with_alert refusal st)
     = regenerations_in_flight st
  /\ (forall body, ~ In (Regenerate body) (requests st)).
Proof.
  intros Hrun Hnone.
  destruct (before_any_plan evs (initial page) st Hrun Hnone eq_refl)
    as (Hp & Hr).
  { intros body Hin. exact Hin. }
  split; [ exact Hp | ].
  split; [ apply regenerate_click_refused; rewrite Hp; reflexivity | ].
  repeat split. exact Hr.
Qed.

(** [C5], on a fresh page and after a failed evaluation. *)
Lemma regeneration_refused_without_plan_witness :
  regenerate_click (initial blank_page)
    = Returns tt (with_alert refusal (initial blank_page))
  /\ requests
       (state_after [ChangeFile (Some ad_jpeg); ClickSubmit;
                     EvaluateSettles (Responded 500 None); ClickRegenerate])
     = [Evaluate ad_jpeg].
Proof.
  split.
  - apply (regeneration_refused_without_plan blank_page [] (initial blank_page)).
    + reflexivity.
    + intros ev [].
  - pose (evs := [ChangeFile (Some ad_jpeg); ClickSubmit;
                  EvaluateSettles (Responded 500 None)]).
    destruct (regeneration_refused_without_plan blank_page evs (state_after evs))
      as (_ & Hclick & _ & Hreq & _).
    + vm_compute. reflexivity.
    + intros ev [<- | [<- | [<- | []]]]; reflexivity.
    + vm_compute. reflexivity.
Defined.

(** [C7] An evaluation that fails before rendering starts (rejected
    request, status outside 2xx, unreadable body) leaves the stored plan
    as it was; the plan changes at the settlement of an evaluation only
    when the response is 2xx with a body, and then to that body's
    [refinement_plan]; [showErrorState] never writes it.  A 2xx response
    with a body other than [null] stores its [refinement_plan] whether or
    not the rendering that follows completes, so also when the settlement
    ends in the error panel. *)
Theorem evaluation_failure_keeps_plan
  (r : FetchOutcome) (st st' : State) :
  step (EvaluateSettles r) st = Some st' ->
  (fails_before_rendering r = true ->
   currentRefinementPlan st' = currentRefinementPlan st)
  /\ (currentRefinementPlan st' <> currentRefinementPlan st ->
      exists status data,
        r = Responded status (Some data) /\ response_ok status = true
        /\ currentRefinementPlan st' = prop data "refinement_plan")
  /\ (forall message, preserves currentRefinementPlan (showErrorState message))
  /\ (forall status data,
        r = Responded status (Some data) ->
        response_ok status = true -> nullish data = false ->
        currentRefinementPlan st' = prop data "refinement_plan").
Proof.
  intros Hs. pose proof (step_plan _ _ _ Hs) as Hp.
  split; [ | split; [ | split ] ]; cycle 3.
  - intros status data -> Hok Hn. cbn [received_plan] in Hp.
    rewrite Hok, Hn in Hp. exact Hp.
  - intros Hf. rewrite Hp.
    destruct r as [message | status [data | ]]; cbn [received_plan];
      try reflexivity.
    cbn [fails_before_rendering] in Hf.
    destruct (response_ok status); [ discriminate Hf | reflexivity ].
  - intros Hne.
    destruct r as [message | status [data | ]]; cbn [received_plan] in Hp;
      try contradiction.
    destruct (response_ok status) eqn:Hok; cbn [andb] in Hp;
      [ | contradiction ].
    destruct (nullish data); cbn [negb] in Hp; [ contradiction | ].
    exists status, data. auto.
  - exact showErrorState_keeps_plan.
Qed.

(** [C7], after ["plan A"] was stored: a 500 response keeps it; a 200
    response whose body is [{}] replaces it by [undefined]. *)
Lemma evaluation_failure_keeps_plan_witness :
  currentRefinementPlan
    (state_after [ChangeFile (Some ad_jpeg); ClickSubmit;
                  EvaluateSettles (Responded 200 (Some critique_A));
                  ClickSubmit;
                  EvaluateSettles
                    (Responded 500
                       (Some (JObj [("detail", JStr "vision service unavailable")])))])
  = JStr "plan A"
  /\ currentRefinementPlan
       (state_after [ChangeFile (Some ad_jpeg); ClickSubmit;
                     EvaluateSettles (Responded 200 (Some critique_A));
                     ClickSubmit;
                     EvaluateSettles (Responded 200 (Some (JObj [])))])
     = JUndefined.
Proof.
  pose (evs := [ChangeFile (Some ad_jpeg); ClickSubmit;
                EvaluateSettles (Responded 200 (Some critique_A));
                ClickSubmit]).
  pose (r := Responded 500
               (Some (JObj [("detail", JStr "vision service unavailable")]))).
  pose (r' := Responded 200 (Some (JObj []))).
  split.
  - destruct (evaluation_failure_keeps_plan r (state_after evs)
                (state_after (evs ++ [EvaluateSettles r]))) as (H & _).
    + vm_compute. reflexivity.
    + exact (H eq_refl).
  - destruct (evaluation_failure_keeps_plan r' (state_after evs)
                (state_after (evs ++ [EvaluateSettles r'])))
      as (_ & _ & _ & H).
    + vm_compute. reflexivity.
    + exact (H 200%nat (JObj []) eq_refl eq_refl eq_refl).
Defined.

(** [C7] does not hold of every settlement that ends in the error panel.
    With ["plan A"] stored, a 200 response whose body is [{}] stores its
    absent plan at the top of [displayCritiqueResults], then throws at the
    read of [scorecard.overall_score]: the error is logged, the error
    panel shown, and the plan is [undefined]. *)
Lemma failed_rendering_overwrites_plan :
  ~ (forall (r : FetchOutcome) (st st' : State),
       step (EvaluateSettles r) st = Some st' ->
       ends_in_error_panel st st' ->
       currentRefinementPlan st' = currentRefinementPlan st).
Proof.
  intros H.
  pose (evs := [ChangeFile (Some ad_jpeg); ClickSubmit;
                EvaluateSettles (Responded 200 (Some critique_A));
                ClickSubmit]).
  pose (r := Responded 200 (Some (JObj []))).
  assert (Hs : step (EvaluateSettles r) (state_after evs)
               = Some (state_after (evs ++ [EvaluateSettles r])))
    by (vm_compute; reflexivity).
  assert (Hc : ends_in_error_panel (state_after evs)
                 (state_after (evs ++ [EvaluateSettles r])))
    by (split; [ eexists | split ]; vm_compute; reflexivity).
  pose proof (H _ _ _ Hs Hc) as E. vm_compute in E. discriminate E.
Qed.

(** The same settlement, as the page shows it. *)
Example plan_stored_before_rendering_throws :
  let st :=
    state_after [ChangeFile (Some ad_jpeg); ClickSubmit;
                 EvaluateSettles (Responded 200 (Some critique_A));
                 ClickSubmit;
                 EvaluateSettles (Responded 200 (Some (JObj [])))] in
  currentRefinementPlan st = JUndefined
  /\ textContent (dom st placeholder_title) = [PStr "Analysis Failed"]
  /\ textContent (dom st placeholder_text)
     = [PStr evaluation_prefix;
        PMessage (ReadOfNullish JUndefined "overall_score")]
  /\ style_display (dom st regenerate_button) = "none".
Proof. vm_compute. repeat split. Qed.

(** ** Requests in flight *)

(** The submit handler has no guard on a pending evaluation: with a
    candidate chosen, every click sends one more request, and leaves the
    button as clickable as it was. *)
Lemma submit_click_reenters (st : State) (image : File) :
  imageFile st = Some image ->
  disabled (dom st submit_button) = false ->
  exists st',
    step ClickSubmit st = Some st'
    /\ evaluations_in_flight st' = S (evaluations_in_flight st)
    /\ requests st' = Evaluate image :: requests st
    /\ imageFile st' = Some image
    /\ disabled (dom st' submit_button) = false.
Proof.
  intros Hf Hd. unfold step. cbn [can_occur handler]. rewrite Hd. cbn [negb].
  rewrite submit_click_run, Hf.
  eexists. split; [ reflexivity | ]. cbn. auto.
Qed.

(** [C3] The code at the failing input: a file is chosen and the submit
    button is clicked twice before any response; two evaluation requests
    are then in flight. *)
Theorem double_submit_two_in_flight :
  exists st,
    run [ChangeFile (Some ad_jpeg); ClickSubmit; ClickSubmit]
      (initial blank_page) = Some st
    /\ evaluations_in_flight st = 2%nat
    /\ requests st = [Evaluate ad_jpeg; Evaluate ad_jpeg]
    /\ disabled (dom st submit_button) = false.
Proof.
  eexists. split; [ vm_compute; reflexivity | ].
  vm_compute. auto.
Qed.

(** The regenerate handler, by contrast, disables its button for the
    duration of the request: at most one regeneration is in flight. *)
Lemma regeneration_single_flight_step (ev : Event) (st st' : State) :
  step ev st = Some st' ->
  (regenerations_in_flight st = 0%nat
   \/ (regenerations_in_flight st = 1%nat
       /\ disabled (dom st regenerate_button) = true)) ->
  (regenerations_in_flight st' = 0%nat
   \/ (regenerations_in_flight st' = 1%nat
       /\ disabled (dom st' regenerate_button) = true)).
Proof.
  intros Hs HI.
  pose (f := fun s : State =>
               (regenerations_in_flight s, disabled (dom s regenerate_button))).
  assert (Hsame : f st' = f st ->
            regenerations_in_flight st' = 0%nat
            \/ (regenerations_in_flight st' = 1%nat
                /\ disabled (dom st' regenerate_button) = true)).
  { unfold f. intros E. inversion E as [[E1 E2]]. rewrite E1, E2. exact HI. }
  destruct ev as [file | | | file | | r | | r];
    try (apply Hsame; refine (step_preserved f _ _ _ _ Hs);
         unfold_script; solve [ frame ]).
  - (* the click needs an enabled button: nothing is in flight *)
    pose proof (step_can_occur _ _ _ Hs) as Hc. cbn [can_occur] in Hc.
    revert Hs. unfold step. cbn [can_occur handler]. rewrite Hc.
    rewrite regenerate_click_run.
    destruct (ToBoolean (currentRefinementPlan st)); intros E;
      inversion E; subst; cbn.
    + destruct HI as [H0 | [_ Hd]].
      * right. rewrite H0. auto.
      * rewrite Hd in Hc. discriminate Hc.
    + exact HI.
  - (* a settlement needs a request in flight: exactly one *)
    pose proof (step_can_occur _ _ _ Hs) as Hc. cbn [can_occur] in Hc.
    left.
    assert (H1 : regenerations_in_flight st = 1%nat).
    { destruct HI as [H0 | [H1 _]]; [ rewrite H0 in Hc; discriminate Hc | exact H1 ]. }
    apply (step_wpr _ _ _ (fun s => regenerations_in_flight s = 0%nat)) in Hs;
      [ exact Hs | ].
    cbn [handler]. apply wpr_bind. apply wpr_modify.
    apply (wpr_preserved regenerations_in_flight _ (fun n => n = 0%nat)).
    + unfold_script. frame.
    + cbn. rewrite H1. reflexivity.
Qed.

Lemma regeneration_single_flight (page : Dom) (evs : list Event) (st : State) :
  run evs (initial page) = Some st ->
  (regenerations_in_flight st <= 1)%nat.
Proof.
  intros Hrun.
  assert (HI : regenerations_in_flight st = 0%nat
               \/ (regenerations_in_flight st = 1%nat
                   /\ disabled (dom st regenerate_button) = true)).
  { assert (H0 : regenerations_in_flight (initial page) = 0%nat
                 \/ (regenerations_in_flight (initial page) = 1%nat
                     /\ disabled (dom (initial page) regenerate_button) = true))
      by (left; reflexivity).
    revert Hrun H0. generalize (initial page) as s0. clear page.
    induction evs as [ | ev evs IH ]; intros s0; cbn [run].
    - intros E H0. inversion E; subst. exact H0.
    - destruct (step ev s0) as [s1 | ] eqn:Hs; [ | discriminate ].
      intros E H0. apply (IH s1 E).
      exact (regeneration_single_flight_step _ _ _ Hs H0). }
  destruct HI as [H0 | [H1 _]]; lia.
Qed.

(** ** File intake (handleFile) *)

Lemma prefix_app (p s : string) :
  String.prefix p s = true <-> exists rest, s = p ++ rest.
Proof.
  revert s. induction p as [ | a p IH ]; intros s.
  - split; [ intros _; exists s; reflexivity | intros _; destruct s; reflexivity ].
  - destruct s as [ | b s ]; cbn [String.prefix append].
    + split; [ discriminate | intros [rest H]; discriminate H ].
    + destruct (ascii_dec a b) as [E | N].
      * subst b. rewrite IH. split; intros [rest H]; exists rest.
        -- rewrite H. reflexivity.
        -- inversion H. reflexivity.
      * split; [ discriminate | intros [rest H] ].
        injection H as Hab _. congruence.
Qed.

(** [C4] [handleFile] never throws.  It accepts the file exactly when its
    declared type begins with ["image/"]: then the candidate is stored, its
    name displayed and the submit button enabled; otherwise the candidate
    is cleared, the fixed rejection message displayed and the button
    disabled.  The plan and the request log are not touched. *)
Theorem handleFile_accepts_images (file : File) (st : State) :
  exists st',
    handleFile file st = Returns tt st'
    /\ (imageFile st' = Some file <-> exists rest, type file = "image/" ++ rest)
    /\ ((exists rest, type file = "image/" ++ rest) ->
        imageFile st' = Some file
        /\ textContent (dom st' file_name) = [PStr (name file)]
        /\ disabled (dom st' submit_button) = false)
    /\ (~ (exists rest, type file = "image/" ++ rest) ->
        imageFile st' = None
        /\ textContent (dom st' file_name) = [PStr rejection_message]
        /\ disabled (dom st' submit_button) = true)
    /\ currentRefinementPlan st' = currentRefinementPlan st
    /\ requests st' = requests st.
Proof.
  unfold handleFile.
  destruct (String.prefix "image/" (type file)) eqn:Hp.
  - assert (Hi : exists rest, type file = "image/" ++ rest)
      by (apply prefix_app; exact Hp).
    eexists. split; [ reflexivity | ]. cbn.
    split; [ tauto | ]. split; [ auto | ]. split; [ tauto | auto ].
  - assert (Hi : ~ exists rest, type file = "image/" ++ rest)
      by (intros H; apply prefix_app in H; congruence).
    eexists. split; [ reflexivity | ]. cbn.
    split; [ split; [ discriminate | tauto ] | ].
    split; [ tauto | ]. split; auto.
Qed.

(** [C4], on a JPEG and on a text file chosen after it. *)
Lemma handleFile_accepts_images_witness :
  (exists st', handleFile ad_jpeg (initial blank_page) = Returns tt st'
     /\ imageFile st' = Some ad_jpeg
     /\ disabled (dom st' submit_button) = false)
  /\ (exists st', handleFile notes_txt
                    (state_after [ChangeFile (Some ad_jpeg)]) = Returns tt st'
        /\ imageFile st' = None
        /\ textContent (dom st' file_name) = [PStr rejection_message]
        /\ disabled (dom st' submit_button) = true).
Proof.
  split.
  - destruct (handleFile_accepts_images ad_jpeg (initial blank_page))
      as (st' & Hrun & _ & Hacc & _).
    exists st'. split; [ exact Hrun | ].
    destruct Hacc as (H1 & _ & H3); [ exists "jpeg"; reflexivity | auto ].
  - destruct (handleFile_accepts_images notes_txt
                (state_after [ChangeFile (Some ad_jpeg)]))
      as (st' & Hrun & _ & _ & Hrej & _).
    exists st'. split; [ exact Hrun | ].
    apply Hrej. intros [rest H]. discriminate H.
Defined.

(** ** Evaluation failures *)

Lemma submit_settle_rejected (message : string) (st : State) :
  submit_settle (Rejected message) st
  = Returns tt (error_state (NetworkFailure message) st).
Proof. reflexivity. Qed.

Lemma submit_settle_unreadable (status : nat) (st : State) :
  submit_settle (Responded status None) st
  = Returns tt (error_state (Engine JsonSyntax) st).
Proof.
  unfold submit_settle, check_ok. destruct (response_ok status); reflexivity.
Qed.

Lemma submit_settle_nullish_error (status : nat) (errorData : JsVal) (st : State) :
  response_ok status = false ->
  nullish errorData = true ->
  submit_settle (Responded status (Some errorData)) st
  = Returns tt (error_state (Engine (ReadOfNullish errorData "detail")) st).
Proof.
  intros Hok Hn. unfold submit_settle, check_ok. rewrite Hok.
  destruct errorData; try discriminate Hn; reflexivity.
Qed.

Lemma submit_settle_not_ok (status : nat) (errorData : JsVal) (st : State) :
  response_ok status = false ->
  nullish errorData = false ->
  submit_settle (Responded status (Some errorData)) st
  = if stringifies (js_or (prop errorData "detail") (JStr (http_error status)))
    then Returns tt
           (error_state
              (Error_ (ToString (js_or (prop errorData "detail")
                                   (JStr (http_error status))))) st)
    else Unexpanded.
Proof.
  intros Hok Hn. unfold submit_settle, check_ok. rewrite Hok. cbn [negb].
  assert (Hget : get errorData "detail" st
                 = Returns (prop errorData "detail") st).
  { destruct errorData as [ | | b | n | s | items | fields ];
      try discriminate Hn; try reflexivity.
    cbn [get prop]. destruct (own fields "detail"); reflexivity. }
  unfold try_catch, bind at 1 2 3. cbn [json ret]. rewrite Hget.
  unfold toString.
  destruct (stringifies (js_or (prop errorData "detail")
                           (JStr (http_error status)))); reflexivity.
Qed.

(** An evaluation that fails before rendering ends in [error_state],
    unless the message of the error needs a conversion that is not
    expanded. *)
Lemma submit_settle_failed (r : FetchOutcome) (st : State) :
  fails_before_rendering r = true ->
  submit_settle r st = Unexpanded
  \/ exists e, submit_settle r st = Returns tt (error_state e st).
Proof.
  intros Hf. destruct r as [message | status [errorData | ]].
  - right. eexists. apply submit_settle_rejected.
  - cbn [fails_before_rendering] in Hf. apply negb_true_iff in Hf.
    destruct (nullish errorData) eqn:Hn.
    + right. eexists. apply submit_settle_nullish_error; assumption.
    + rewrite submit_settle_not_ok by assumption.
      destruct (stringifies _); [ right; eexists; reflexivity | left; reflexivity ].
  - right. eexists. apply submit_settle_unreadable.
Qed.

Lemma submit_settle_failed_converts (r : FetchOutcome) (st : State) :
  fails_before_rendering r = true ->
  message_converts r = true ->
  exists e, submit_settle r st = Returns tt (error_state e st).
Proof.
  intros Hf Hc. destruct r as [message | status [errorData | ]].
  - eexists. apply submit_settle_rejected.
  - cbn [fails_before_rendering] in Hf. apply negb_true_iff in Hf.
    cbn [message_converts] in Hc.
    destruct (nullish errorData) eqn:Hn.
    + eexists. apply submit_settle_nullish_error; assumption.
    + rewrite submit_settle_not_ok by assumption. unfold js_or.
      destruct (ToBoolean (prop errorData "detail"));
        [ rewrite Hc | cbn [stringifies] ]; eexists; reflexivity.
  - eexists. apply submit_settle_unreadable.
Qed.

(** [C6] The message of the error panel after a response whose status is
    not 2xx, against the order of preference of the specification.  Every
    such response is a failure: unless the conversion of its [detail] is
    not expanded, the settlement ends in the error state.  On a body that
    was read and is not [null] the panel shows the [detail] when it is
    truthy and the generic message with the status code otherwise; this
    is the claimed message whenever the [detail] is truthy or absent (a
    falsy [detail] is treated as absent).  On a body that cannot be read,
    or that is [null], the panel does not show the claimed message:
    line 69 ([await response.json()]) or the read of [errorData.detail]
    throws before the fallback of line 70 is built, and the panel shows
    the message of that error where the specification asks for the
    message with the status code. *)
Theorem evaluation_failure_message_order (status : nat) (st : State) :
  response_ok status = false ->
  (forall body,
     submit_settle (Responded status body) st = Unexpanded
     \/ exists e,
          submit_settle (Responded status body) st
          = Returns tt (error_state e st))
  /\ (forall errorData,
        nullish errorData = false ->
        stringifies (prop errorData "detail") = true ->
        exists st',
          submit_settle (Responded status (Some errorData)) st = Returns tt st'
          /\ textContent (dom st' placeholder_text)
             = PStr evaluation_prefix
               :: (if ToBoolean (prop errorData "detail")
                   then ToString (prop errorData "detail")
                   else [PStr (http_error status)])
          /\ (ToBoolean (prop errorData "detail") = true
              \/ supplied_detail (Some errorData) = None ->
              textContent (dom st' placeholder_text)
              = PStr evaluation_prefix
                :: claimed_message (Responded status (Some errorData))))
  /\ (exists st',
        submit_settle (Responded status None) st = Returns tt st'
        /\ textContent (dom st' placeholder_text)
           = [PStr evaluation_prefix; PMessage JsonSyntax]
        /\ claimed_message (Responded status None)
           = [PStr (http_error status)]
        /\ textContent (dom st' placeholder_text)
           <> PStr evaluation_prefix :: claimed_message (Responded status None))
  /\ (exists st',
        submit_settle (Responded status (Some JNull)) st = Returns tt st'
        /\ textContent (dom st' placeholder_text)
           = [PStr evaluation_prefix; PMessage (ReadOfNullish JNull "detail")]
        /\ claimed_message (Responded status (Some JNull))
           = [PStr (http_error status)]
        /\ textContent (dom st' placeholder_text)
           <> PStr evaluation_prefix
              :: claimed_message (Responded status (Some JNull))).
Proof.
  intros Hok. split; [ | split; [ | split ] ].
  - intros body. apply submit_settle_failed.
    destruct body; cbn [fails_before_rendering]; rewrite ?Hok; reflexivity.
  - intros errorData Hn Hstr.
    pose proof (submit_settle_not_ok status errorData st Hok Hn) as Hrun.
    assert (Hshown :
              exists st',
                submit_settle (Responded status (Some errorData)) st
                = Returns tt st'
                /\ textContent (dom st' placeholder_text)
                   = PStr evaluation_prefix
                     :: (if ToBoolean (prop errorData "detail")
                         then ToString (prop errorData "detail")
                         else [PStr (http_error status)])).
    { unfold js_or in Hrun.
      destruct (ToBoolean (prop errorData "detail")).
      - rewrite Hstr in Hrun. eexists. split; [ exact Hrun | reflexivity ].
      - cbn [stringifies] in Hrun.
        eexists. split; [ exact Hrun | reflexivity ]. }
    destruct Hshown as (st' & Hrun' & Htext).
    exists st'. split; [ exact Hrun' | ]. split; [ exact Htext | ].
    intros Hclaimed. rewrite Htext. f_equal.
    unfold claimed_message, supplied_detail in *.
    destruct errorData as [ | | b | n | s | items | fields ];
      try reflexivity.
    cbn [prop] in *.
    destruct (own fields "detail") as [detail | ]; [ | reflexivity ].
    destruct Hclaimed as [Ht | Habsent]; [ | discriminate Habsent ].
    rewrite Ht. reflexivity.
  - eexists. split; [ apply submit_settle_unreadable | ].
    split; [ reflexivity | ]. split; [ reflexivity | ].
    cbn. intros E. discriminate E.
  - eexists.
    split; [ apply submit_settle_nullish_error; [ exact Hok | reflexivity ] | ].
    split; [ reflexivity | ]. split; [ reflexivity | ].
    cbn. intros E. discriminate E.
Qed.

(** [C6], on 500 responses: with a [detail]; with an empty object; with a
    body that is not JSON, where the panel shows the parser's message and
    not the status code. *)
Lemma evaluation_failure_message_order_witness :
  let st := state_after [ChangeFile (Some ad_jpeg); ClickSubmit] in
  (exists st',
     submit_settle
       (Responded 500 (Some (JObj [("detail", JStr "vision service unavailable")])))
       st = Returns tt st'
     /\ as_string (textContent (dom st' placeholder_text))
        = Some "An error occurred during evaluation: vision service unavailable")
  /\ (exists st',
        submit_settle (Responded 500 (Some (JObj []))) st = Returns tt st'
        /\ as_string (textContent (dom st' placeholder_text))
           = Some "An error occurred during evaluation: HTTP error! Status: 500")
  /\ (exists st',
        submit_settle (Responded 500 None) st = Returns tt st'
        /\ textContent (dom st' placeholder_text)
           = [PStr "An error occurred during evaluation: "; PMessage JsonSyntax]
        /\ claimed_message (Responded 500 None)
           = [PStr "HTTP error! Status: 500"]).
Proof.
  intros st.
  destruct (evaluation_failure_message_order 500 st eq_refl)
    as (_ & Hbody & (st3 & Hrun3 & Htext3 & Hclaim3 & _) & _).
  split; [ | split ].
  - destruct (Hbody (JObj [("detail", JStr "vision service unavailable")])
                eq_refl eq_refl) as (st1 & Hrun1 & Htext1 & _).
    exists st1. split; [ exact Hrun1 | ]. rewrite Htext1. reflexivity.
  - destruct (Hbody (JObj []) eq_refl eq_refl) as (st2 & Hrun2 & Htext2 & _).
    exists st2. split; [ exact Hrun2 | ]. rewrite Htext2. reflexivity.
  - exists st3. split; [ exact Hrun3 | ]. split; [ exact Htext3 | ].
    exact Hclaim3.
Defined.

(** The rejected request: the panel shows the message of the transport
    error, as the last tier of the specification has it. *)
Lemma submit_settle_rejected_message (message : string) (st : State) :
  exists st',
    submit_settle (Rejected message) st = Returns tt st'
    /\ textContent (dom st' placeholder_text)
       = PStr evaluation_prefix :: claimed_message (Rejected message).
Proof. eexists. split; [ apply submit_settle_rejected | reflexivity ]. Qed.

(** ** Regeneration settlements *)

(** A failed regeneration logs the error and runs the cleanup, nothing
    else; the conversion of the [detail] of an error body may be one
    that is not expanded. *)
Lemma regenerate_settle_failed (r : FetchOutcome) (st : State) :
  regeneration_failed r = true ->
  regenerate_settle r st = Unexpanded
  \/ exists e,
       regenerate_settle r st =
         Returns tt
           (with_dom (regeneration_cleanup (dom st))
              (with_console regeneration_label e st)).
Proof.
  intros Hf. unfold regenerate_settle.
  destruct r as [message | status [data | ]].
  - right. eexists. reflexivity.
  - cbn [regeneration_failed] in Hf. unfold check_ok.
    destruct (response_ok status); cbn [negb orb] in Hf |- *.
    + right. destruct data as [ | | b | n | s | items | fields ];
        try discriminate Hf; eexists; reflexivity.
    + unfold try_finally, try_catch, bind, json, get, toString.
      destruct data as [ | | b | n | s | items | fields ]; cbn [ret throw];
        try (right; eexists; reflexivity).
      destruct (own fields "detail") as [detail | ]; cbn [ret throw];
        [ | right; eexists; reflexivity ].
      destruct (stringifies (js_or detail (JStr (http_error status))));
        [ right; eexists; reflexivity | left; reflexivity ].
  - right. unfold check_ok. destruct (response_ok status); eexists; reflexivity.
Qed.

(** The settlement of a 2xx response whose body is not [null]. *)
Lemma regenerate_settle_ok (status : nat) (data : JsVal) (st : State) :
  response_ok status = true ->
  nullish data = false ->
  regenerate_settle (Responded status (Some data)) st
  = if stringifies (prop data "regenerated_image_url")
    then
      Returns tt
        (with_dom
           (regeneration_cleanup
              (upd regenerated_image (with_display "block")
                 (upd regenerated_image
                    (with_src (ToString (prop data "regenerated_image_url")))
                    (upd regenerated_image_placeholder (with_display "none")
                       (upd regenerated_image_loader (with_display "none")
                          (dom st)))))) st)
    else Unexpanded.
Proof.
  intros Hok Hn. unfold regenerate_settle, check_ok. rewrite Hok. cbn [negb].
  assert (Hget : forall s, get data "regenerated_image_url" s
                 = Returns (prop data "regenerated_image_url") s).
  { intros s0. destruct data as [ | | b | n | s | items | fields ];
      try discriminate Hn; try reflexivity.
    cbn [get prop]. destruct (own fields "regenerated_image_url"); reflexivity. }
  unfold try_finally, try_catch, bind, json, displayRegeneratedImage.
  cbn [ret]. rewrite Hget. unfold on at 1 2. cbn [modify]. unfold toString.
  destruct (stringifies (prop data "regenerated_image_url")); reflexivity.
Qed.

(** A regeneration that succeeds swaps the image in, then runs the
    cleanup; the conversion of the URL may be one that is not expanded. *)
Lemma regenerate_settle_succeeded (r : FetchOutcome) (st : State) :
  regeneration_failed r = false ->
  regenerate_settle r st = Unexpanded
  \/ exists url,
       regenerate_settle r st =
         Returns tt
           (with_dom
              (regeneration_cleanup
                 (upd regenerated_image (with_display "block")
                    (upd regenerated_image (with_src (ToString url))
                       (upd regenerated_image_placeholder (with_display "none")
                          (upd regenerated_image_loader (with_display "none")
                             (dom st)))))) st).
Proof.
  intros Hf.
  destruct r as [message | status [data | ]]; try discriminate Hf.
  cbn [regeneration_failed] in Hf. apply orb_false_iff in Hf.
  destruct Hf as [Hok Hn]. apply negb_false_iff in Hok.
  rewrite regenerate_settle_ok by assumption.
  destruct (stringifies (prop data "regenerated_image_url"));
    [ right; eexists; reflexivity | left; reflexivity ].
Qed.

(** [C10] When a regeneration fails, the settlement hides the loader and
    re-enables the button, and leaves the image and the placeholder as the
    click left them: hidden image, placeholder untouched.  After a
    failure that follows a successful regeneration and a new click,
    neither the image nor the placeholder is displayed. *)
Theorem regeneration_failure_restores_nothing
  (r : FetchOutcome) (st2 st3 : State) :
  regeneration_failed r = true ->
  step (RegenerateSettles r) st2 = Some st3 ->
  (style_display (dom st3 regenerated_image_loader) = "none"
   /\ disabled (dom st3 regenerate_button) = false)
  /\ (style_display (dom st3 regenerated_image)
        = style_display (dom st2 regenerated_image)
      /\ style_display (dom st3 regenerated_image_placeholder)
         = style_display (dom st2 regenerated_image_placeholder))
  /\ (forall (r_ok : FetchOutcome) (st0 st1 : State),
        regeneration_failed r_ok = false ->
        step (RegenerateSettles r_ok) st0 = Some st1 ->
        step ClickRegenerate st1 = Some st2 ->
        requests st2 <> requests st1 ->
        style_display (dom st1 regenerated_image) = "block"
        /\ style_display (dom st3 regenerated_image) = "none"
        /\ style_display (dom st3 regenerated_image_placeholder) = "none").
Proof.
  intros Hfail H3.
  (* the failed settlement *)
  revert H3. unfold step.
  destruct (can_occur (RegenerateSettles r) st2); [ | discriminate ].
  cbn [handler]. unfold bind at 1. cbn [modify].
  destruct (regenerate_settle_failed r (settled_regeneration st2) Hfail)
    as [-> | (e & ->)]; [ discriminate | ].
  intros E3. inversion E3 as [E3']. clear E3.
  split; [ split; reflexivity | ]. split; [ split; reflexivity | ].
  intros r_ok st0 st1 Hok H1 H2 Hnew.
  (* the successful settlement before it *)
  revert H1. unfold step.
  destruct (can_occur (RegenerateSettles r_ok) st0); [ | discriminate ].
  cbn [handler]. unfold bind at 1. cbn [modify].
  destruct (regenerate_settle_succeeded r_ok (settled_regeneration st0) Hok)
    as [-> | (url & ->)]; [ discriminate | ].
  intros E1. inversion E1 as [E1']. clear E1.
  (* the click in between *)
  revert H2. unfold step.
  destruct (can_occur ClickRegenerate st1); [ | discriminate ].
  cbn [handler]. rewrite regenerate_click_run.
  destruct (ToBoolean (currentRefinementPlan st1)); intros E2;
    inversion E2 as [E2']; clear E2;
    [ | exfalso; apply Hnew; rewrite <- E2'; reflexivity ].
  rewrite <- E1'. repeat split.
Qed.

(** [C10], on a page where a regeneration succeeded, then the next one
    was rejected. *)
Lemma regeneration_failure_restores_nothing_witness :
  let st :=
    state_after [ChangeFile (Some ad_jpeg); ClickSubmit;
                 EvaluateSettles (Responded 200 (Some critique_A));
                 ClickRegenerate; RegenerateSettles regenerated_ok;
                 ClickRegenerate; RegenerateSettles (Rejected "Failed to fetch")] in
  style_display (dom st regenerated_image) = "none"
  /\ style_display (dom st regenerated_image_placeholder) = "none"
  /\ style_display (dom st regenerated_image_loader) = "none"
  /\ disabled (dom st regenerate_button) = false.
Proof.
  pose (evs := [ChangeFile (Some ad_jpeg); ClickSubmit;
                EvaluateSettles (Responded 200 (Some critique_A));
                ClickRegenerate]).
  destruct (regeneration_failure_restores_nothing
              (Rejected "Failed to fetch")
              (state_after (evs ++ [RegenerateSettles regenerated_ok;
                                    ClickRegenerate]))
              (state_after (evs ++ [RegenerateSettles regenerated_ok;
                                    ClickRegenerate;
                                    RegenerateSettles (Rejected "Failed to fetch")])))
    as ((Hl & Hb) & _ & Hscenario).
  - reflexivity.
  - vm_compute. reflexivity.
  - destruct (Hscenario regenerated_ok (state_after evs)
                (state_after (evs ++ [RegenerateSettles regenerated_ok])))
      as (_ & Hi & Hp).
    + reflexivity.
    + vm_compute. reflexivity.
    + vm_compute. reflexivity.
    + vm_compute. discriminate.
    + intros st. repeat split; assumption.
Defined.

(** ** The strengths panel *)

Lemma forEach_appendStrength (items : list JsVal) (st : State) :
  wpr (forEach appendStrength items)
    (fun _ st' =>
       strengths_shown st' = (strengths_shown st ++ map strength_item items)%list)
    (fun _ => True) st.
Proof.
  revert st. induction items as [ | x items IH ]; intros st; cbn [forEach map].
  - unfold wpr, ret. rewrite app_nil_r. reflexivity.
  - apply wpr_bind. unfold appendStrength.
    apply wpr_bind. apply wpr_toTextContent. intros _. apply wpr_modify.
    eapply wpr_mono; [ | | apply IH ]; cbv beta.
    + intros _ s Hs. rewrite Hs. unfold strengths_shown. cbn.
      rewrite <- app_assoc. reflexivity.
    + auto.
Qed.

(** The part of [displayCritiqueResults] that follows the emptying of the
    list, for each shape of [strengths]. *)
Lemma strengths_branch (strengths : JsVal) (st : State) (k : M unit) :
  strengths_shown st = [] ->
  preserves strengths_shown k ->
  wpr
    (nonEmpty <- (if ToBoolean strengths then length_positive strengths
                  else ret false) ;;
     (if (nonEmpty : bool) then
        match strengths with
        | JArr items => forEach appendStrength items
        | _ => throw (Engine (NotAFunction "forEach"))
        end
      else
        on strengths_list (with_children [Li [PStr no_strengths]])) ;;
     k)
    (fun _ st' => strengths_expected strengths (strengths_shown st'))
    (fun _ => True) st.
Proof.
  intros Hempty Hk.
  assert (Hplaceholder :
            (forall items, strengths = JArr items -> items = []) ->
            wpr (on strengths_list (with_children [Li [PStr no_strengths]]) ;; k)
              (fun _ st' => strengths_expected strengths (strengths_shown st'))
              (fun _ => True) st).
  { intros Hitems. apply wpr_bind. apply wpr_modify.
    eapply wpr_mono;
      [ | | apply (wpr_preserved strengths_shown k
                     (fun l => l = [Li [PStr no_strengths]]) _ Hk) ];
      cbv beta.
    - intros _ s Hs. rewrite Hs. split; [ discriminate | ].
      split; [ reflexivity | ].
      intros items E Hne. exfalso. apply Hne. exact (Hitems items E).
    - auto.
    - reflexivity. }
  assert (Hthrow : forall e,
            wpr (throw (A := unit) e ;; k)
              (fun _ st' => strengths_expected strengths (strengths_shown st'))
              (fun _ => True) st) by (intros e; exact I).
  destruct strengths as [ | | b | n | s | items | fields ]; cbn [ToBoolean].
  - apply wpr_bind. unfold wpr at 1. cbn [ret].
    apply Hplaceholder; discriminate.
  - apply wpr_bind. unfold wpr at 1. cbn [ret].
    apply Hplaceholder; discriminate.
  - destruct b; apply wpr_bind; unfold wpr at 1; cbn [length_positive ret];
      (apply Hplaceholder; discriminate).
  - destruct n as [sg | sg | | sg m e]; apply wpr_bind; unfold wpr at 1;
      cbn [length_positive ret]; (apply Hplaceholder; discriminate).
  - destruct s as [ | c s ]; cbn [String.eqb negb]; apply wpr_bind; unfold wpr at 1;
      cbn [length_positive ret String.length Nat.eqb negb].
    + apply Hplaceholder; discriminate.
    + apply Hthrow.
  - apply wpr_bind. unfold wpr at 1. cbn [length_positive ret].
    destruct items as [ | x items ]; cbn [List.length Nat.eqb negb].
    + apply Hplaceholder. intros items E. inversion E. reflexivity.
    + apply wpr_bind.
      eapply wpr_mono; [ | | apply forEach_appendStrength ]; cbv beta.
      * intros _ s Hs. rewrite Hempty in Hs. cbn [app] in Hs.
        eapply wpr_mono;
          [ | | apply (wpr_preserved strengths_shown k
                         (fun l => l = map strength_item (x :: items)) _ Hk Hs) ];
          cbv beta.
        -- intros _ s' Hs'. rewrite Hs'. split; [ discriminate | ].
           split; [ intros [E | [E | E]]; discriminate E | ].
           intros items' E _. inversion E. reflexivity.
        -- auto.
      * auto.
  - apply wpr_bind. unfold wpr at 1, length_positive.
    destruct (own fields "length") as [x | ]; cbn [ret].
    + destruct (ToNumber x) as [n | ]; cbn [ret unexpanded]; [ | exact I ].
      destruct (SFcompare n (S754_zero false)) as [[ | | ] | ];
        try (apply Hplaceholder; discriminate).
      apply Hthrow.
    + apply Hplaceholder; discriminate.
Qed.

Lemma displayCritiqueResults_strengths (data : JsVal) (st : State) :
  wpr (displayCritiqueResults data)
    (fun _ st' =>
       strengths_expected (prop (prop data "scorecard") "strengths")
         (strengths_shown st'))
    (fun _ => True) st.
Proof.
  unfold displayCritiqueResults.
  do 25 (apply wpr_skip; intros ? ?).
  apply wpr_bind. apply wpr_modify. cbv beta.
  apply wpr_bind. unfold scorecard_field.
  apply wpr_bind. apply wpr_get; [ trivial | intros _ ].
  apply wpr_get; [ trivial | intros _ ].
  apply strengths_branch; [ reflexivity | frame ].
Qed.

(** [C8] Whenever a critique is rendered to the end, the strengths list is
    not empty: with [scorecard.strengths] absent, [null] or the empty
    array it holds exactly one item, the fixed placeholder line; with a
    non-empty array it holds one item per strength, in order, whose text
    is the strength itself. *)
Theorem strengths_panel (data : JsVal) (st st' : State) :
  displayCritiqueResults data st = Returns tt st' ->
  let strengths := prop (prop data "scorecard") "strengths" in
  strengths_shown st' <> []
  /\ (strengths = JUndefined \/ strengths = JNull \/ strengths = JArr [] ->
      strengths_shown st' = [Li [PStr no_strengths]])
  /\ (forall items,
        strengths = JArr items -> items <> [] ->
        strengths_shown st' = map (fun x => Li (textContentOf x)) items)
  /\ (forall texts,
        strengths = JArr (map JStr texts) -> texts <> [] ->
        strengths_shown st' = map (fun s => Li [PStr s]) texts).
Proof.
  intros Hrun strengths.
  pose proof (displayCritiqueResults_strengths data st) as H.
  unfold wpr in H. rewrite Hrun in H. fold strengths in H.
  destruct H as (Hne & Hnone & Hsome).
  split; [ exact Hne | ]. split; [ exact Hnone | ]. split; [ exact Hsome | ].
  intros texts E Hne'.
  rewrite (Hsome _ E) by (destruct texts; [ contradiction | discriminate ]).
  rewrite map_map. reflexivity.
Qed.

(** [C8], on a critique with two strengths, with an empty array, and with
    no [strengths] property. *)
Lemma strengths_panel_witness :
  let submitted := state_after [ChangeFile (Some ad_jpeg); ClickSubmit] in
  (exists st', displayCritiqueResults critique_A submitted = Returns tt st'
     /\ strengths_shown st' = [Li [PStr "bold"]; Li [PStr "clear"]])
  /\ (exists st', displayCritiqueResults critique_B submitted = Returns tt st'
        /\ strengths_shown st' = [Li [PStr no_strengths]])
  /\ (exists st', displayCritiqueResults critique_C submitted = Returns tt st'
        /\ strengths_shown st' = [Li [PStr no_strengths]]).
Proof.
  intros submitted.
  split; [ | split ].
  - eexists. split; [ vm_compute; reflexivity | ].
    refine (proj2 (proj2 (proj2
              (strengths_panel critique_A submitted _ _))) ["bold"; "clear"] _ _).
    + vm_compute. reflexivity.
    + reflexivity.
    + discriminate.
  - eexists. split; [ vm_compute; reflexivity | ].
    refine (proj1 (proj2 (strengths_panel critique_B submitted _ _)) _).
    + vm_compute. reflexivity.
    + right. right. reflexivity.
  - eexists. split; [ vm_compute; reflexivity | ].
    refine (proj1 (proj2 (strengths_panel critique_C submitted _ _)) _).
    + vm_compute. reflexivity.
    + left. reflexivity.
Defined.

(** * Further properties of the script *)

(** ** The candidate file *)

Lemma handleFile_run (file : File) (st : State) :
  handleFile file st =
    Returns tt
      (if is_image file then
         with_dom
           (upd submit_button (with_disabled false)
              (upd file_name (with_textContent [PStr (name file)]) (dom st)))
           (with_imageFile (Some file) st)
       else
         with_dom
           (upd submit_button (with_disabled true)
              (upd file_name (with_textContent [PStr rejection_message]) (dom st)))
           (with_imageFile None st)).
Proof.
  unfold handleFile, is_image.
  destruct (String.prefix "image/" (type file)); reflexivity.
Qed.

(** A step either leaves the candidate and the submit button alone, or is
    the selection of a file, which sets both from the same test. *)
Lemma step_candidate (ev : Event) (st st' : State) :
  step ev st = Some st' ->
  (imageFile st' = imageFile st
   /\ disabled (dom st' submit_button) = disabled (dom st submit_button))
  \/ (exists file,
        (ev = ChangeFile (Some file) \/ ev = DropFile (Some file))
        /\ imageFile st' = (if is_image file then Some file else None)
        /\ disabled (dom st' submit_button) = negb (is_image file)).
Proof.
  intros Hs.
  pose (f := fun s : State => (imageFile s, disabled (dom s submit_button))).
  assert (Hsame : f st' = f st ->
            imageFile st' = imageFile st
            /\ disabled (dom st' submit_button) = disabled (dom st submit_button)).
  { unfold f. intros E. inversion E. auto. }
  destruct ev as [[file | ] | | | [file | ] | | r | | r];
    try (left; apply Hsame; refine (step_preserved f _ _ _ _ Hs);
         unfold_script; solve [ frame ]).
  - right. exists file. split; [ auto | ].
    revert Hs. unfold step. cbn [can_occur handler]. rewrite handleFile_run.
    intros E. inversion E; subst. destruct (is_image file); split; reflexivity.
  - right. exists file. split; [ auto | ].
    revert Hs. unfold step. cbn [can_occur handler]. unfold bind at 1.
    cbn [on modify]. rewrite handleFile_run.
    intros E. inversion E; subst. destruct (is_image file); split; reflexivity.
Qed.

Lemma candidate_is_image_step (ev : Event) (st st' : State) :
  step ev st = Some st' ->
  ((forall file, imageFile st = Some file -> is_image file = true)
   /\ (forall file, In (Evaluate file) (requests st) -> is_image file = true)) ->
  (forall file, imageFile st' = Some file -> is_image file = true)
  /\ (forall file, In (Evaluate file) (requests st') -> is_image file = true).
Proof.
  intros Hs [Hc Hr]. split.
  - intros file Hf.
    destruct (step_candidate _ _ _ Hs) as [[E _] | (g & _ & E & _)].
    + apply Hc. rewrite <- E. exact Hf.
    + rewrite E in Hf. destruct (is_image g) eqn:Hg; [ | discriminate Hf ].
      inversion Hf; subst. exact Hg.
  - intros file Hin.
    destruct (step_requests _ _ _ Hs)
      as [Hsame | [(image & _ & Hi & Hreq) | (_ & _ & Hreq)]].
    + apply Hr. rewrite <- Hsame. exact Hin.
    + rewrite Hreq in Hin. destruct Hin as [E | Hin].
      * inversion E; subst. apply Hc. exact Hi.
      * apply Hr. exact Hin.
    + rewrite Hreq in Hin. destruct Hin as [E | Hin];
        [ discriminate E | apply Hr; exact Hin ].
Qed.

(** [X1] Along every trace from a fresh page, the candidate file, when
    there is one, and the file of every evaluation request ever sent have
    a declared type that begins with ["image/"]: no other file reaches the
    network. *)
Theorem evaluation_requests_carry_images
  (page : Dom) (evs : list Event) (st : State) :
  run evs (initial page) = Some st ->
  (forall file, imageFile st = Some file ->
     exists rest, type file = "image/" ++ rest)
  /\ (forall file, In (Evaluate file) (requests st) ->
        exists rest, type file = "image/" ++ rest).
Proof.
  intros Hrun.
  assert (H : (forall file, imageFile st = Some file -> is_image file = true)
              /\ (forall file, In (Evaluate file) (requests st) ->
                    is_image file = true)).
  { assert (H0 : (forall file, imageFile (initial page) = Some file ->
                    is_image file = true)
                 /\ (forall file, In (Evaluate file) (requests (initial page)) ->
                       is_image file = true))
      by (split; [ discriminate | intros file [] ]).
    revert Hrun H0. generalize (initial page) as s0. clear page.
    induction evs as [ | ev evs IH ]; intros s0; cbn [run].
    - intros E H0. inversion E; subst. exact H0.
    - destruct (step ev s0) as [s1 | ] eqn:Hs; [ | discriminate ].
      intros E H0. apply (IH s1 E).
      exact (candidate_is_image_step _ _ _ Hs H0). }
  destruct H as [Hc Hr].
  split; intros file Hf; apply prefix_app; [ apply Hc | apply Hr ]; exact Hf.
Qed.

(** [X1], on a trace where a text file is chosen after an image was sent. *)
Lemma evaluation_requests_carry_images_witness :
  requests (state_after [ChangeFile (Some ad_jpeg); ClickSubmit;
                         DropFile (Some notes_txt)])
  = [Evaluate ad_jpeg]
  /\ exists rest, type ad_jpeg = "image/" ++ rest.
Proof.
  split; [ reflexivity | ].
  apply (evaluation_requests_carry_images blank_page
           [ChangeFile (Some ad_jpeg); ClickSubmit; DropFile (Some notes_txt)]
           (state_after [ChangeFile (Some ad_jpeg); ClickSubmit;
                         DropFile (Some notes_txt)])).
  - vm_compute. reflexivity.
  - left. reflexivity.
Defined.

Lemma submit_tracks_candidate_step (ev : Event) (st st' : State) :
  step ev st = Some st' ->
  disabled (dom st submit_button) = negb (is_some (imageFile st)) ->
  disabled (dom st' submit_button) = negb (is_some (imageFile st')).
Proof.
  intros Hs H.
  destruct (step_candidate _ _ _ Hs) as [[E1 E2] | (g & _ & E1 & E2)].
  - rewrite E1, E2. exact H.
  - rewrite E1, E2. destruct (is_image g); reflexivity.
Qed.

(** [X2] Once a file has been selected, by the picker or by a drop, the
    submit button is disabled exactly when there is no candidate, whatever
    happens next.  A click that reaches the submit handler then always
    finds a candidate: it sends the request and raises no alert. *)
Theorem submit_enabled_iff_candidate
  (file : File) (st0 st1 st st' : State) (evs : list Event) :
  step (ChangeFile (Some file)) st0 = Some st1
  \/ step (DropFile (Some file)) st0 = Some st1 ->
  run evs st1 = Some st ->
  disabled (dom st submit_button) = negb (is_some (imageFile st))
  /\ (step ClickSubmit st = Some st' ->
      alerts st' = alerts st
      /\ exists image,
           imageFile st = Some image
           /\ requests st' = Evaluate image :: requests st).
Proof.
  intros Hsel Hrun.
  assert (H1 : disabled (dom st1 submit_button) = negb (is_some (imageFile st1))).
  { destruct Hsel as [Hs | Hs];
      destruct (step_candidate _ _ _ Hs) as [[E1 E2] | (g & _ & E1 & E2)];
      try (rewrite E1, E2; destruct (is_image g); reflexivity).
    - revert Hs. unfold step. cbn [can_occur handler]. rewrite handleFile_run.
      intros E. inversion E; subst. destruct (is_image file); reflexivity.
    - revert Hs. unfold step. cbn [can_occur handler]. unfold bind at 1.
      cbn [on modify]. rewrite handleFile_run.
      intros E. inversion E; subst. destruct (is_image file); reflexivity. }
  assert (H : disabled (dom st submit_button) = negb (is_some (imageFile st))).
  { revert Hrun H1. generalize st1 as s0. clear Hsel st0 st1.
    induction evs as [ | ev evs IH ]; intros s0; cbn [run].
    - intros E H0. inversion E; subst. exact H0.
    - destruct (step ev s0) as [s1 | ] eqn:Hs; [ | discriminate ].
      intros E H0. apply (IH s1 E).
      exact (submit_tracks_candidate_step _ _ _ Hs H0). }
  split; [ exact H | ].
  intros Hclick.
  pose proof (step_can_occur _ _ _ Hclick) as Hc. cbn [can_occur] in Hc.
  rewrite H in Hc.
  destruct (imageFile st) as [image | ] eqn:Hf; [ | discriminate Hc ].
  revert Hclick. unfold step. cbn [can_occur handler].
  rewrite H, ?Hf. cbn [is_some negb]. rewrite submit_click_run, Hf.
  intros E. inversion E; subst. split; [ reflexivity | ].
  exists image. split; reflexivity.
Qed.

(** [X2], after a JPEG is chosen and a text file dropped over it. *)
Lemma submit_enabled_iff_candidate_witness :
  let st := state_after [ChangeFile (Some ad_jpeg); DropFile (Some notes_txt)] in
  disabled (dom st submit_button) = true /\ imageFile st = None.
Proof.
  intros st.
  destruct (submit_enabled_iff_candidate ad_jpeg (initial blank_page)
              (state_after [ChangeFile (Some ad_jpeg)]) st st
              [DropFile (Some notes_txt)]) as [H _].
  - left. vm_compute. reflexivity.
  - vm_compute. reflexivity.
  - split; [ exact H | reflexivity ].
Defined.

(** [X3] A drop is a drag-leave followed by a selection in the picker: the
    highlight of the upload area is removed first, whether or not a file
    comes with the drop and whether or not it is accepted. *)
Theorem drop_is_leave_then_change (file : option File) (st : State) :
  step (DropFile file) st = run [DragLeave; ChangeFile file] st
  /\ (forall st', step (DropFile file) st = Some st' ->
        drag_over (dom st' upload_area) = false).
Proof.
  split.
  - destruct file as [f | ]; [ | reflexivity ].
    unfold run, step. cbn [can_occur handler].
    unfold bind at 1. cbn [on modify]. rewrite handleFile_run. reflexivity.
  - intros st'. unfold step. cbn [can_occur handler]. unfold bind at 1.
    cbn [on modify].
    destruct file as [f | ].
    + rewrite handleFile_run. intros E. inversion E; subst.
      destruct (is_image f); reflexivity.
    + intros E. inversion E; subst. reflexivity.
Qed.

(** [X4] The last selection wins: selecting a second file leaves the page
    exactly as selecting it alone would, whatever the first file was. *)
Theorem last_selection_wins (first second : File) (st : State) :
  exists st12 st2,
    run [ChangeFile (Some first); ChangeFile (Some second)] st = Some st12
    /\ run [ChangeFile (Some second)] st = Some st2
    /\ same_page st12 st2.
Proof.
  unfold run, step. cbn [can_occur handler]. rewrite !handleFile_run.
  do 2 eexists. split; [ reflexivity | ]. split; [ reflexivity | ].
  unfold same_page.
  destruct (is_image first), (is_image second);
    repeat (split; [ reflexivity | ]); intros id; destruct id; reflexivity.
Qed.

(** ** Rendering a critique *)

Lemma same_page_refl (a : State) : same_page a a.
Proof. unfold same_page. repeat split. Qed.

Lemma same_page_sym (a b : State) : same_page a b -> same_page b a.
Proof.
  unfold same_page. intros (H1 & H2 & H3 & H4 & H5 & H6 & H7 & H8).
  repeat split; auto.
Qed.

Lemma same_page_trans (a b c : State) :
  same_page a b -> same_page b c -> same_page a c.
Proof.
  unfold same_page.
  intros (H1 & H2 & H3 & H4 & H5 & H6 & H7 & H8)
         (K1 & K2 & K3 & K4 & K5 & K6 & K7 & K8).
  split; [ congruence | ]. split; [ congruence | ]. split; [ congruence | ].
  split; [ congruence | ]. split; [ congruence | ]. split; [ congruence | ].
  split; [ congruence | ]. intros id. rewrite H8. apply K8.
Qed.

Lemma wp3_bind {A B} (m : M A) (k : A -> M B) Qr Qf st :
  wp3 m (fun a s => wp3 (k a) Qr Qf s) Qf st -> wp3 (bind m k) Qr Qf st.
Proof. unfold wp3, bind. destruct (m st); tauto. Qed.

Lemma wp3_ret {A} (a : A) (Qr : A -> State -> Prop) Qf st :
  Qr a st -> wp3 (ret a) Qr Qf st.
Proof. intros H. exact H. Qed.

Lemma wp3_modify (g : State -> State) (Qr : unit -> State -> Prop) Qf st :
  Qr tt (g st) -> wp3 (modify g) Qr Qf st.
Proof. intros H. exact H. Qed.

Lemma wp3_get (v : JsVal) (k : string) (Qr : JsVal -> State -> Prop) Qf st :
  (nullish v = true -> Qf) ->
  (nullish v = false -> Qr (prop v k) st) ->
  wp3 (get v k) Qr Qf st.
Proof.
  intros Hn Hv. unfold wp3.
  destruct v as [ | | b | n | s | items | fields ];
    try (apply Hn; reflexivity); try (apply Hv; reflexivity).
  specialize (Hv eq_refl). cbn [get prop] in *.
  destruct (own fields k); exact Hv.
Qed.

Lemma wp3_percent (v : JsVal) (Qr : Text -> State -> Prop) Qf st :
  (ToNumber v = None -> Qf) ->
  (is_some (ToNumber v) = true -> Qr [PFixed0 (number_of v)] st) ->
  wp3 (percent v) Qr Qf st.
Proof.
  intros Hn Hs. unfold wp3, percent, number_of in *.
  destruct (ToNumber v); [ apply Hs; reflexivity | apply Hn; reflexivity ].
Qed.

Lemma wp3_scoreColor (v : JsVal) (Qr : string -> State -> Prop) Qf st :
  (ToNumber v = None -> Qf) ->
  (is_some (ToNumber v) = true -> Qr (getScoreColor (number_of v)) st) ->
  wp3 (scoreColor v) Qr Qf st.
Proof.
  intros Hn Hs. unfold wp3, scoreColor, number_of in *.
  destruct (ToNumber v); [ apply Hs; reflexivity | apply Hn; reflexivity ].
Qed.

Lemma wp3_toString (v : JsVal) (Qr : Text -> State -> Prop) Qf st :
  (stringifies v = false -> Qf) ->
  (stringifies v = true -> Qr (ToString v) st) ->
  wp3 (toString v) Qr Qf st.
Proof.
  intros Hn Hs. unfold wp3, toString.
  destruct (stringifies v); [ apply Hs; reflexivity | apply Hn; reflexivity ].
Qed.

Lemma wp3_toTextContent (v : JsVal) (Qr : Text -> State -> Prop) Qf st :
  (stringifies v = false -> Qf) ->
  (stringifies v = true -> Qr (textContentOf v) st) ->
  wp3 (toTextContent v) Qr Qf st.
Proof.
  intros Hn Hs. unfold wp3, toTextContent.
  destruct (stringifies v); [ apply Hs; reflexivity | apply Hn; reflexivity ].
Qed.

(** The loop stops at the first strength whose conversion is not
    expanded. *)
Lemma forEach_appendStrength_stops (items : list JsVal) (st : State) :
  forallb stringifies items = false ->
  forEach appendStrength items st = Unexpanded.
Proof.
  revert st. induction items as [ | x items IH ]; intros st H.
  - discriminate H.
  - cbn [forallb] in H. cbn [forEach]. unfold bind at 1.
    unfold appendStrength at 1, bind at 1, toTextContent.
    destruct (stringifies x); cbn [andb] in H; [ | reflexivity ].
    cbn [ret on modify]. apply IH. exact H.
Qed.

(** The loop over the strengths appends one item each, in order. *)
Lemma forEach_appendStrength_page (items : list JsVal) (st : State) :
  forallb stringifies items = true ->
  exists st',
    forEach appendStrength items st = Returns tt st'
    /\ same_page st'
         (with_dom
            (upd strengths_list
               (fun e => with_children
                           (children e ++ map strength_item items)%list e)
               (dom st)) st).
Proof.
  revert st. induction items as [ | x items IH ]; intros st Hall.
  - exists st. split; [ reflexivity | ].
    unfold same_page. repeat (split; [ reflexivity | ]).
    intros id. cbn [dom with_dom]. unfold upd.
    destruct (ElementId_beq id strengths_list); [ | reflexivity ].
    cbn [map]. rewrite app_nil_r. destruct (dom st id); reflexivity.
  - cbn [forallb] in Hall. apply andb_true_iff in Hall.
    destruct Hall as [Hx Hall].
    cbn [forEach]. unfold bind at 1. unfold appendStrength at 1, bind at 1.
    unfold toTextContent. rewrite Hx. cbn [ret on modify].
    destruct (IH (with_dom
                    (upd strengths_list
                       (fun e => with_children
                                   (children e ++ [Li (textContentOf x)])%list e)
                       (dom st)) st) Hall) as (st' & Hrun & Hsame).
    exists st'. split; [ exact Hrun | ].
    apply (same_page_trans _ _ _ Hsame).
    unfold same_page. repeat (split; [ reflexivity | ]).
    intros id. cbn [dom with_dom]. unfold upd.
    destruct (ElementId_beq id strengths_list); [ | reflexivity ].
    unfold with_children, strength_item. cbn [children map].
    rewrite <- app_assoc. reflexivity.
Qed.

(** The strengths block, for every shape of [strengths]: it fails exactly
    off [strengths_ok], and otherwise leaves the list with the items of
    [strengths_rendered]. *)
Lemma strengths_page (strengths : JsVal) (st : State) (k : M unit)
  (Qr : unit -> State -> Prop) (Qf : Prop) :
  children (dom st strengths_list) = [] ->
  (strengths_ok strengths = false -> Qf) ->
  (strengths_ok strengths = true ->
   forall st1,
     same_page st1
       (with_dom
          (upd strengths_list (with_children (strengths_rendered strengths))
             (dom st)) st) ->
     wp3 k Qr Qf st1) ->
  wp3
    (nonEmpty <- (if ToBoolean strengths then length_positive strengths
                  else ret false) ;;
     (if (nonEmpty : bool) then
        match strengths with
        | JArr items => forEach appendStrength items
        | _ => throw (Engine (NotAFunction "forEach"))
        end
      else
        on strengths_list (with_children [Li [PStr no_strengths]])) ;;
     k)
    Qr Qf st.
Proof.
  intros Hempty Hfail Hok.
  assert (Hplaceholder :
            strengths_ok strengths = true ->
            strengths_rendered strengths = [Li [PStr no_strengths]] ->
            wp3 (on strengths_list (with_children [Li [PStr no_strengths]]) ;; k)
              Qr Qf st).
  { intros Ho Hr. apply wp3_bind. apply wp3_modify.
    apply (Hok Ho). rewrite Hr. apply same_page_refl. }
  destruct strengths as [ | | b | n | s | items | fields ]; cbn [ToBoolean].
  - apply wp3_bind. unfold wp3 at 1. cbn [ret]. apply Hplaceholder; reflexivity.
  - apply wp3_bind. unfold wp3 at 1. cbn [ret]. apply Hplaceholder; reflexivity.
  - destruct b; apply wp3_bind; unfold wp3 at 1; cbn [length_positive ret];
      apply Hplaceholder; reflexivity.
  - destruct n as [sg | sg | | sg m e]; apply wp3_bind; unfold wp3 at 1;
      cbn [length_positive ret]; apply Hplaceholder; reflexivity.
  - destruct s as [ | c s ]; cbn [String.eqb negb]; apply wp3_bind;
      unfold wp3 at 1; cbn [length_positive ret String.length Nat.eqb negb].
    + apply Hplaceholder; reflexivity.
    + unfold wp3, bind, throw. apply Hfail. reflexivity.
  - apply wp3_bind. unfold wp3 at 1. cbn [length_positive ret].
    destruct items as [ | x items ]; cbn [List.length Nat.eqb negb].
    + apply Hplaceholder; reflexivity.
    + apply wp3_bind. unfold wp3 at 1.
      cbn [strengths_ok] in Hfail, Hok.
      destruct (forallb stringifies (x :: items)) eqn:Hall;
        [ | rewrite (forEach_appendStrength_stops _ _ Hall);
            apply Hfail; reflexivity ].
      destruct (forEach_appendStrength_page (x :: items) st Hall)
        as (st' & Hrun & Hsame).
      rewrite Hrun. apply (Hok eq_refl).
      apply (same_page_trans _ _ _ Hsame).
      unfold same_page. repeat (split; [ reflexivity | ]).
      intros id. cbn [dom with_dom]. unfold upd.
      destruct (ElementId_beq id strengths_list) eqn:Hid; [ | reflexivity ].
      assert (E : id = strengths_list)
        by (destruct id; try discriminate Hid; reflexivity).
      subst id. rewrite Hempty. reflexivity.
  - apply wp3_bind. unfold wp3 at 1, length_positive.
    cbn [strengths_ok] in Hfail, Hplaceholder.
    destruct (own fields "length") as [x | ]; cbn [ret].
    + destruct (ToNumber x) as [n | ]; cbn [ret unexpanded];
        [ | apply Hfail; reflexivity ].
      destruct (SFcompare n (S754_zero false)) as [[ | | ] | ];
        try (apply Hplaceholder; reflexivity).
      unfold wp3, bind, throw. apply Hfail. reflexivity.
    + apply Hplaceholder; reflexivity.
Qed.

(** [settle_shape] decides [renderable data] from the facts gathered on
    the way through [displayCritiqueResults]. *)
Ltac settle_shape :=
  first
    [ exfalso;
      match goal with
      | H : ToNumber ?v = None, H' : is_some (ToNumber ?v) = true |- _ =>
          rewrite H in H'; discriminate H'
      end
    | unfold renderable, dimension_ok;
      repeat match goal with
             | H : ?x = _ |- context [?x] => rewrite H
             end;
      reflexivity ].

(** After an update the new state is named, so that the goal keeps one
    copy of it. *)
Ltac name_state :=
  match goal with
  | |- wp3 _ _ _ ?s => first [ is_var s | let x := fresh "s" in set (x := s) ]
  | _ => idtac
  end.

Ltac step_on := apply wp3_bind; apply wp3_modify; cbv beta; name_state.
Ltac step_get :=
  apply wp3_bind; apply wp3_get; [ intros ?; settle_shape | intros ? ]; cbv beta.
Ltac step_field :=
  apply wp3_bind; unfold scorecard_field at 1; apply wp3_bind;
  apply wp3_get; [ intros ?; settle_shape | intros ? ]; cbv beta;
  apply wp3_get; [ intros ?; settle_shape | intros ? ]; cbv beta.
Ltac step_percent :=
  apply wp3_bind; apply wp3_percent; [ intros ?; settle_shape | intros ? ];
  cbv beta.
Ltac step_color :=
  apply wp3_bind; apply wp3_scoreColor; [ intros ?; settle_shape | intros ? ];
  cbv beta.
Ltac step_string :=
  apply wp3_bind; apply wp3_toString; [ intros ?; settle_shape | intros ? ];
  cbv beta.
Ltac step_text :=
  apply wp3_bind; apply wp3_toTextContent; [ intros ?; settle_shape | intros ? ];
  cbv beta.
Ltac step_card :=
  apply wp3_bind; unfold appendScoreCard at 1; cbv beta iota;
  step_get; step_color; step_percent; step_get; step_string;
  apply wp3_modify; cbv beta; name_state.

(** [displayCritiqueResults] in one pass: in the embedding it returns on
    the renderable bodies only, and then in the state [rendered_state]
    describes; on the others it throws or stops at a conversion that is
    not expanded. *)
Lemma displayCritiqueResults_wp3 (data : JsVal) (st : State) :
  wp3 (displayCritiqueResults data)
    (fun _ st' => renderable data = true
                  /\ same_page st' (rendered_state data st))
    (renderable data = false) st.
Proof.
  unfold displayCritiqueResults.
  do 4 step_on. step_get. step_on. step_get. step_string. do 3 step_on.
  step_get. step_string. step_on.
  step_field. step_percent. step_on. step_color. do 2 step_on.
  do 4 step_field.
  apply wp3_bind. cbn [forEach]. do 4 step_card. apply wp3_ret.
  step_on. step_field.
  apply strengths_page; [ reflexivity | intros ?; settle_shape | intros Hok st1 Hst1 ].
  step_get. step_text.
  apply wp3_bind. apply wp3_modify. cbv beta. apply wp3_modify.
  split; [ settle_shape | ].
  destruct Hst1 as (E1 & E2 & E3 & E4 & E5 & E6 & E7 & E8).
  unfold same_page, rendered_state.
  cbn [imageFile currentRefinementPlan alerts console requests
       evaluations_in_flight regenerations_in_flight dom
       with_dom with_plan].
  rewrite E1, E2, E3, E4, E5, E6, E7.
  repeat (split; [ reflexivity | ]).
  intros id. unfold upd at 1 2. rewrite E8.
  destruct id; reflexivity.
Qed.

Lemma renderable_returns (data : JsVal) (st : State) :
  renderable data = true ->
  exists st',
    displayCritiqueResults data st = Returns tt st'
    /\ same_page st' (rendered_state data st).
Proof.
  intros Hr. pose proof (displayCritiqueResults_wp3 data st) as H.
  unfold wp3 in H.
  destruct (displayCritiqueResults data st) as [[] st' | e st' | ].
  - exists st'. split; [ reflexivity | apply H ].
  - congruence.
  - congruence.
Qed.

(** [X5] [displayCritiqueResults] runs to its end on every body that has
    a scorecard with its four dimensions, provided each score (the overall
    one and the four of the dimensions) is a number, a boolean, [null] or
    absent, the strengths are falsy, a boolean, a number, an array or an
    object without a positive [length], and every value written as text
    (original image, brand name, feedbacks, strengths, plan) converts to
    a string.  The page is then the one [rendered] describes: panels
    shown, plan stored, four cards in the fixed order, each with the
    colour of its own score, regenerated image hidden behind its
    placeholder, regenerate button shown. *)
Theorem renderable_body_is_rendered (data : JsVal) (st : State) :
  renderable data = true ->
  exists st',
    displayCritiqueResults data st = Returns tt st'
    /\ same_page st' (rendered_state data st)
    /\ currentRefinementPlan st' = prop data "refinement_plan"
    /\ children (dom st' scorecard_container)
       = [ card "Brand Alignment" (prop (prop data "scorecard") "brand_alignment");
           card "Visual Quality" (prop (prop data "scorecard") "visual_quality");
           card "Message Clarity" (prop (prop data "scorecard") "message_clarity");
           card "Safety & Ethics" (prop (prop data "scorecard") "safety_ethics") ]
    /\ style_display (dom st' regenerated_image) = "none"
    /\ style_display (dom st' regenerated_image_placeholder) = "flex"
    /\ style_display (dom st' regenerate_button) = "block".
Proof.
  intros Hr. destruct (renderable_returns data st Hr) as (st' & Hrun & Hsame).
  exists st'. split; [ exact Hrun | ]. split; [ exact Hsame | ].
  destruct Hsame as (_ & H2 & _ & _ & _ & _ & _ & H8).
  rewrite H2, !H8. repeat split.
Qed.

(** [X5], on a complete critique. *)
Lemma renderable_body_is_rendered_witness :
  exists st',
    displayCritiqueResults critique_A (initial blank_page) = Returns tt st'
    /\ children (dom st' scorecard_container)
       = [ card "Brand Alignment" (dimension JsNumber.lit_0_8 "on brand");
           card "Visual Quality" (dimension JsNumber.lit_0_5 "soft focus");
           card "Message Clarity" (dimension JsNumber.lit_0_8 "clear");
           card "Safety & Ethics" (dimension JsNumber.lit_0_8 "safe") ]
    /\ style_display (dom st' regenerate_button) = "block".
Proof.
  destruct (renderable_body_is_rendered critique_A (initial blank_page) eq_refl)
    as (st' & Hrun & _ & _ & Hcards & _ & _ & Hbutton).
  exists st'. split; [ exact Hrun | ]. split; [ exact Hcards | exact Hbutton ].
Defined.

Lemma rendered_state_congruent (data : JsVal) (a b : State) :
  same_page a b -> same_page (rendered_state data a) (rendered_state data b).
Proof.
  unfold same_page, rendered_state.
  intros (H1 & H2 & H3 & H4 & H5 & H6 & H7 & H8).
  cbn [imageFile currentRefinementPlan alerts console requests
       evaluations_in_flight regenerations_in_flight dom with_dom with_plan].
  repeat (split; [ assumption || reflexivity | ]).
  intros id. unfold rendered. rewrite H8. reflexivity.
Qed.

Lemma rendered_state_idempotent (data : JsVal) (st : State) :
  same_page (rendered_state data (rendered_state data st))
    (rendered_state data st).
Proof.
  unfold same_page, rendered_state.
  repeat (split; [ reflexivity | ]).
  intros id. destruct id; reflexivity.
Qed.

(** [X6] Rendering is idempotent: rendering the same body a second time
    leaves the page, the plan and everything else as the first rendering
    left them. *)
Theorem rendering_is_idempotent (data : JsVal) (st st1 st2 : State) :
  displayCritiqueResults data st = Returns tt st1 ->
  displayCritiqueResults data st1 = Returns tt st2 ->
  same_page st2 st1.
Proof.
  intros E1 E2.
  pose proof (displayCritiqueResults_wp3 data st) as H1.
  pose proof (displayCritiqueResults_wp3 data st1) as H2.
  unfold wp3 in H1, H2. rewrite E1 in H1. rewrite E2 in H2.
  destruct H1 as [_ H1]. destruct H2 as [_ H2].
  apply (same_page_trans _ _ _ H2).
  apply (same_page_trans _ (rendered_state data (rendered_state data st))).
  - apply rendered_state_congruent. exact H1.
  - apply (same_page_trans _ _ _ (rendered_state_idempotent data st)).
    apply same_page_sym. exact H1.
Qed.

(** [X6], rendering a critique twice on a fresh page. *)
Lemma rendering_is_idempotent_witness :
  exists st1 st2,
    displayCritiqueResults critique_A (initial blank_page) = Returns tt st1
    /\ displayCritiqueResults critique_A st1 = Returns tt st2
    /\ same_page st2 st1.
Proof.
  eexists. eexists. split; [ vm_compute; reflexivity | ].
  split; [ vm_compute; reflexivity | ].
  eapply (rendering_is_idempotent critique_A (initial blank_page)).
  - vm_compute. reflexivity.
  - vm_compute. reflexivity.
Defined.

(** ** Evaluation responses *)

Lemma submit_settle_renders (status : nat) (data : JsVal) (st : State) :
  response_ok status = true ->
  renderable data = true ->
  exists st',
    submit_settle (Responded status (Some data)) st = Returns tt st'
    /\ same_page st' (rendered_state data st).
Proof.
  intros Hok Hr.
  destruct (renderable_returns data st Hr) as (st' & Hrun & Hsame).
  exists st'. split; [ | exact Hsame ].
  unfold submit_settle, try_catch, bind.
  rewrite check_ok_ok by assumption. cbn [json ret]. rewrite Hrun. reflexivity.
Qed.

(** [X7] A 2xx response whose body is renderable (scorecard with four
    dimensions, scores that are numbers, booleans, [null] or absent, and
    texts that convert to strings) is rendered and nothing else happens:
    the handler returns in the rendered state, no error is logged, no
    alert raised and no request sent. *)
Theorem evaluation_success_renders
  (status : nat) (data : JsVal) (st : State) :
  response_ok status = true ->
  renderable data = true ->
  exists st',
    submit_settle (Responded status (Some data)) st = Returns tt st'
    /\ same_page st' (rendered_state data st)
    /\ console st' = console st
    /\ currentRefinementPlan st' = prop data "refinement_plan"
    /\ style_display (dom st' regenerate_button) = "block"
    /\ style_display (dom st' results_content) = "block"
    /\ style_display (dom st' loader) = "none".
Proof.
  intros Hok Hr.
  destruct (submit_settle_renders status data st Hok Hr) as (st' & Hrun & Hsame).
  exists st'. split; [ exact Hrun | ]. split; [ exact Hsame | ].
  destruct Hsame as (_ & H2 & _ & H4 & _ & _ & _ & H8).
  rewrite H2, H4, !H8. repeat split.
Qed.

(** [X7], for a complete critique arriving after a submission. *)
Lemma evaluation_success_renders_witness :
  exists st',
    submit_settle (Responded 200 (Some critique_A))
      (state_after [ChangeFile (Some ad_jpeg); ClickSubmit]) = Returns tt st'
    /\ currentRefinementPlan st' = JStr "plan A"
    /\ style_display (dom st' regenerate_button) = "block".
Proof.
  destruct (evaluation_success_renders 200 critique_A
              (state_after [ChangeFile (Some ad_jpeg); ClickSubmit]))
    as (st' & Hrun & _ & _ & Hplan & Hbutton & _).
  - reflexivity.
  - reflexivity.
  - exists st'. split; [ exact Hrun | ]. split; [ exact Hplan | exact Hbutton ].
Defined.

(** [X8] The regenerate button is shown by the rendering of a renderable
    body also when the body carried no usable plan (absent, [null], empty
    string, zero or [false]): the button is then displayed, and a click
    on it is refused with the prompt and sends nothing. *)
Theorem button_shown_without_plan
  (status : nat) (data : JsVal) (st : State) :
  response_ok status = true ->
  renderable data = true ->
  ToBoolean (prop data "refinement_plan") = false ->
  exists st',
    submit_settle (Responded status (Some data)) st = Returns tt st'
    /\ style_display (dom st' regenerate_button) = "block"
    /\ regenerate_click st' = Returns tt (with_alert refusal st')
    /\ requests (with_alert refusal st') = requests st.
Proof.
  intros Hok Hr Hplan.
  destruct (submit_settle_renders status data st Hok Hr) as (st' & Hrun & Hsame).
  destruct Hsame as (_ & H2 & _ & _ & H5 & _ & _ & H8).
  exists st'. split; [ exact Hrun | ].
  split; [ rewrite H8; reflexivity | ].
  split.
  - rewrite regenerate_click_run, H2. cbn [currentRefinementPlan rendered_state with_plan].
    rewrite Hplan. reflexivity.
  - exact H5.
Qed.

(** [X8], for a critique whose plan is the empty string. *)
Lemma button_shown_without_plan_witness :
  exists st',
    submit_settle (Responded 200 (Some (critique_with "" [])))
      (state_after [ChangeFile (Some ad_jpeg); ClickSubmit]) = Returns tt st'
    /\ style_display (dom st' regenerate_button) = "block"
    /\ regenerate_click st' = Returns tt (with_alert refusal st').
Proof.
  destruct (button_shown_without_plan 200 (critique_with "" [])
              (state_after [ChangeFile (Some ad_jpeg); ClickSubmit]))
    as (st' & Hrun & Hb & Hclick & _).
  - reflexivity.
  - reflexivity.
  - reflexivity.
  - exists st'. split; [ exact Hrun | ]. split; [ exact Hb | exact Hclick ].
Defined.

(** ** Regeneration responses *)

(** [X9] A 2xx regeneration response with a body other than [null], whose
    [regenerated_image_url] converts to a string (any value but an object
    with a [toString] property of its own, or an array holding one), sets
    the source of the regenerated image to that string, shows the image,
    hides placeholder and loader, re-enables the button and logs nothing.
    The value is not checked otherwise: when the property is absent the
    source becomes the text ["undefined"]. *)
Theorem regeneration_success_swaps_image
  (status : nat) (data : JsVal) (st : State) :
  response_ok status = true ->
  nullish data = false ->
  stringifies (prop data "regenerated_image_url") = true ->
  exists st',
    regenerate_settle (Responded status (Some data)) st = Returns tt st'
    /\ src (dom st' regenerated_image)
       = ToString (prop data "regenerated_image_url")
    /\ style_display (dom st' regenerated_image) = "block"
    /\ style_display (dom st' regenerated_image_placeholder) = "none"
    /\ style_display (dom st' regenerated_image_loader) = "none"
    /\ disabled (dom st' regenerate_button) = false
    /\ console st' = console st
    /\ currentRefinementPlan st' = currentRefinementPlan st
    /\ (prop data "regenerated_image_url" = JUndefined ->
        src (dom st' regenerated_image) = [PStr "undefined"]).
Proof.
  intros Hok Hn Hstr.
  pose proof (regenerate_settle_ok status data st Hok Hn) as Hrun.
  rewrite Hstr in Hrun.
  eexists. split; [ exact Hrun | ].
  split; [ reflexivity | ]. split; [ reflexivity | ]. split; [ reflexivity | ].
  split; [ reflexivity | ]. split; [ reflexivity | ]. split; [ reflexivity | ].
  split; [ reflexivity | ].
  intros E. cbn. rewrite E. reflexivity.
Qed.

(** [X9], on a body with a URL and on an empty body. *)
Lemma regeneration_success_swaps_image_witness :
  (exists st',
     regenerate_settle regenerated_ok (initial blank_page) = Returns tt st'
     /\ src (dom st' regenerated_image) = [PStr "https://x/y.png"])
  /\ (exists st',
        regenerate_settle (Responded 200 (Some (JObj []))) (initial blank_page)
          = Returns tt st'
        /\ src (dom st' regenerated_image) = [PStr "undefined"]
        /\ style_display (dom st' regenerated_image) = "block").
Proof.
  split.
  - destruct (regeneration_success_swaps_image 200
                (JObj [("regenerated_image_url", JStr "https://x/y.png")])
                (initial blank_page)) as (st' & Hrun & Hsrc & _);
      [ reflexivity | reflexivity | reflexivity | ].
    exists st'. split; [ exact Hrun | exact Hsrc ].
  - destruct (regeneration_success_swaps_image 200 (JObj []) (initial blank_page))
      as (st' & Hrun & _ & Hshow & _ & _ & _ & _ & _ & Habsent);
      [ reflexivity | reflexivity | reflexivity | ].
    exists st'. split; [ exact Hrun | ].
    split; [ apply Habsent; reflexivity | exact Hshow ].
Defined.

(** [X10] A failed regeneration tells the user nothing: no alert is
    raised, and no element changes its text, its source, its children or
    its colour; the only trace is one entry in the console. *)
Theorem regeneration_failure_is_silent
  (r : FetchOutcome) (st st' : State) :
  regeneration_failed r = true ->
  step (RegenerateSettles r) st = Some st' ->
  alerts st' = alerts st
  /\ (exists e, console st' = (regeneration_label, e) :: console st)
  /\ requests st' = requests st
  /\ forall id,
       textContent (dom st' id) = textContent (dom st id)
       /\ src (dom st' id) = src (dom st id)
       /\ children (dom st' id) = children (dom st id)
       /\ style_backgroundColor (dom st' id) = style_backgroundColor (dom st id).
Proof.
  intros Hfail. unfold step.
  destruct (can_occur (RegenerateSettles r) st); [ | discriminate ].
  cbn [handler]. unfold bind at 1. cbn [modify].
  destruct (regenerate_settle_failed r (settled_regeneration st) Hfail)
    as [-> | (e & ->)]; [ discriminate | ].
  intros E. inversion E; subst.
  split; [ reflexivity | ]. split; [ exists e; reflexivity | ].
  split; [ reflexivity | ].
  intros id. destruct id; repeat split.
Qed.

(** [X10], for a rejected request after a click. *)
Lemma regeneration_failure_is_silent_witness :
  let before :=
    state_after [ChangeFile (Some ad_jpeg); ClickSubmit;
                 EvaluateSettles (Responded 200 (Some critique_A));
                 ClickRegenerate] in
  let after :=
    state_after [ChangeFile (Some ad_jpeg); ClickSubmit;
                 EvaluateSettles (Responded 200 (Some critique_A));
                 ClickRegenerate; RegenerateSettles (Rejected "Failed to fetch")] in
  alerts after = alerts before
  /\ textContent (dom after placeholder_text)
     = textContent (dom before placeholder_text).
Proof.
  intros before after.
  destruct (regeneration_failure_is_silent (Rejected "Failed to fetch")
              before after) as (Ha & _ & _ & Hid).
  - reflexivity.
  - vm_compute. reflexivity.
  - split; [ exact Ha | apply (Hid placeholder_text) ].
Defined.

(** [X11] At any moment at most one regeneration request is in flight;
    while it is, the regenerate button is disabled, so that a click
    reaches the handler only when none is. *)
Theorem one_regeneration_at_a_time
  (page : Dom) (evs : list Event) (st : State) :
  run evs (initial page) = Some st ->
  (regenerations_in_flight st <= 1)%nat
  /\ (regenerations_in_flight st = 1%nat ->
      disabled (dom st regenerate_button) = true)
  /\ (forall st', step ClickRegenerate st = Some st' ->
        regenerations_in_flight st = 0%nat).
Proof.
  intros Hrun.
  assert (HI : regenerations_in_flight st = 0%nat
               \/ (regenerations_in_flight st = 1%nat
                   /\ disabled (dom st regenerate_button) = true)).
  { assert (H0 : regenerations_in_flight (initial page) = 0%nat
                 \/ (regenerations_in_flight (initial page) = 1%nat
                     /\ disabled (dom (initial page) regenerate_button) = true))
      by (left; reflexivity).
    revert Hrun H0. generalize (initial page) as s0. clear page.
    induction evs as [ | ev evs IH ]; intros s0; cbn [run].
    - intros E H0. inversion E; subst. exact H0.
    - destruct (step ev s0) as [s1 | ] eqn:Hs; [ | discriminate ].
      intros E H0. apply (IH s1 E).
      exact (regeneration_single_flight_step _ _ _ Hs H0). }
  split; [ destruct HI as [H0 | [H1 _]]; lia | ].
  split.
  - intros H1. destruct HI as [H0 | [_ Hd]]; [ congruence | exact Hd ].
  - intros st' Hs. pose proof (step_can_occur _ _ _ Hs) as Hc.
    cbn [can_occur] in Hc.
    destruct HI as [H0 | [_ Hd]]; [ exact H0 | ].
    rewrite Hd in Hc. discriminate Hc.
Qed.

(** [X11], while a regeneration is pending. *)
Lemma one_regeneration_at_a_time_witness :
  let st :=
    state_after [ChangeFile (Some ad_jpeg); ClickSubmit;
                 EvaluateSettles (Responded 200 (Some critique_A));
                 ClickRegenerate] in
  regenerations_in_flight st = 1%nat
  /\ disabled (dom st regenerate_button) = true
  /\ step ClickRegenerate st = None.
Proof.
  intros st.
  destruct (one_regeneration_at_a_time blank_page
              [ChangeFile (Some ad_jpeg); ClickSubmit;
               EvaluateSettles (Responded 200 (Some critique_A));
               ClickRegenerate] st) as (_ & Hd & _).
  - vm_compute. reflexivity.
  - split; [ reflexivity | ]. split; [ apply Hd; reflexivity | ].
    vm_compute. reflexivity.
Defined.

(** [X12] However a regeneration settles (success, error status,
    unreadable body, rejected request), the [finally] block has run
    when the handler is done: the loader is hidden and the button
    enabled again. *)
Theorem regeneration_always_cleans_up
  (r : FetchOutcome) (st st' : State) :
  step (RegenerateSettles r) st = Some st' ->
  style_display (dom st' regenerated_image_loader) = "none"
  /\ disabled (dom st' regenerate_button) = false
  /\ regenerations_in_flight st' = Nat.pred (regenerations_in_flight st)
  /\ currentRefinementPlan st' = currentRefinementPlan st.
Proof.
  unfold step.
  destruct (can_occur (RegenerateSettles r) st); [ | discriminate ].
  cbn [handler]. unfold bind at 1. cbn [modify].
  destruct (regeneration_failed r) eqn:Hf.
  - destruct (regenerate_settle_failed r (settled_regeneration st) Hf)
      as [-> | (e & ->)]; [ discriminate | ].
    intros E. inversion E; subst. repeat split.
  - destruct (regenerate_settle_succeeded r (settled_regeneration st) Hf)
      as [-> | (url & ->)]; [ discriminate | ].
    intros E. inversion E; subst. repeat split.
Qed.

(** [X12], for a 500 response. *)
Lemma regeneration_always_cleans_up_witness :
  let st :=
    state_after [ChangeFile (Some ad_jpeg); ClickSubmit;
                 EvaluateSettles (Responded 200 (Some critique_A));
                 ClickRegenerate; RegenerateSettles (Responded 500 None)] in
  style_display (dom st regenerated_image_loader) = "none"
  /\ disabled (dom st regenerate_button) = false.
Proof.
  intros st.
  destruct (regeneration_always_cleans_up (Responded 500 None)
              (state_after [ChangeFile (Some ad_jpeg); ClickSubmit;
                            EvaluateSettles (Responded 200 (Some critique_A));
                            ClickRegenerate]) st) as (Hl & Hd & _).
  - vm_compute. reflexivity.
  - split; [ exact Hl | exact Hd ].
Defined.

(** ** Exceptions *)

Lemma never_throws_ret {A} (a : A) : never_throws (ret a).
Proof. intros st. exact I. Qed.

Lemma never_throws_read {A} (g : State -> A) : never_throws (read g).
Proof. intros st. exact I. Qed.

Lemma never_throws_modify (g : State -> State) : never_throws (modify g).
Proof. intros st. exact I. Qed.

Lemma never_throws_bind {A B} (m : M A) (k : A -> M B) :
  never_throws m -> (forall a, never_throws (k a)) -> never_throws (bind m k).
Proof.
  intros Hm Hk st. specialize (Hm st). unfold bind.
  destruct (m st) as [a st1 | e st1 | ]; [ apply Hk | contradiction | exact I ].
Qed.

Lemma never_throws_try_catch (body : M unit) (h : JsError -> M unit) :
  (forall e, never_throws (h e)) -> never_throws (try_catch body h).
Proof.
  intros Hh st. unfold try_catch.
  destruct (body st) as [a st1 | e st1 | ]; [ exact I | apply Hh | exact I ].
Qed.

Lemma never_throws_try_finally (body final : M unit) :
  never_throws body -> never_throws final ->
  never_throws (try_finally body final).
Proof.
  intros Hb Hf st. specialize (Hb st). unfold try_finally.
  destruct (body st) as [a st1 | e st1 | ];
    [ apply Hf | contradiction | exact I ].
Qed.

Ltac no_throw :=
  repeat first
    [ apply never_throws_ret
    | apply never_throws_read
    | apply never_throws_modify
    | apply never_throws_try_catch; intros ?
    | apply never_throws_try_finally
    | apply never_throws_bind; [ | intros ? ]
    | progress cbv beta
    | match goal with
      | |- never_throws (match ?x with _ => _ end) => destruct x
      | |- never_throws (if ?x then _ else _) => destruct x
      end ].

(** [X13] No exception escapes an event handler: whatever the response,
    every error raised while a request settles is caught, and the
    handlers of clicks, drags and file selections raise none. *)
Theorem handlers_never_throw (ev : Event) (st : State) :
  forall e st', handler ev st <> Throws e st'.
Proof.
  assert (H : never_throws (handler ev)).
  { destruct ev as [file | | | file | | r | | r];
      unfold handler, submit_settle, regenerate_settle, submit_click,
        regenerate_click, showErrorState, showLoadingState, handleFile;
      no_throw. }
  intros e st' E. specialize (H st). rewrite E in H. exact H.
Qed.

(** ** A submission that fails *)

(** [X14] A submission followed by a failure that precedes rendering
    (rejected request, status outside 2xx, unreadable body; the [detail]
    of an error body, if any, converting to a string) shows the error
    panel and nothing else: loader, results and images are hidden, the
    regenerate button is hidden, the panel is titled and its text is the
    fixed prefix followed by the message of the error that was logged.
    The number of evaluations in flight is back to what it was before
    the click, and the one request of the click has been sent. *)
Theorem failed_submission_shows_only_the_error
  (image : File) (r : FetchOutcome) (st : State) :
  imageFile st = Some image ->
  disabled (dom st submit_button) = false ->
  fails_before_rendering r = true ->
  message_converts r = true ->
  exists st1 st2,
    step ClickSubmit st = Some st1
    /\ step (EvaluateSettles r) st1 = Some st2
    /\ style_display (dom st2 results_placeholder) = "flex"
    /\ textContent (dom st2 placeholder_title) = [PStr "Analysis Failed"]
    /\ (exists e,
          console st2 = (evaluation_label, e) :: console st
          /\ textContent (dom st2 placeholder_text)
             = PStr evaluation_prefix :: error_message e)
    /\ style_display (dom st2 loader) = "none"
    /\ style_display (dom st2 results_content) = "none"
    /\ style_display (dom st2 images_results_section) = "none"
    /\ style_display (dom st2 regenerate_button) = "none"
    /\ evaluations_in_flight st1 = S (evaluations_in_flight st)
    /\ evaluations_in_flight st2 = evaluations_in_flight st
    /\ requests st2 = Evaluate image :: requests st.
Proof.
  intros Hf Hd Hfail Hconv.
  pose (st1 :=
          with_request (Evaluate image)
            (with_dom
               (upd regenerate_button (with_display "none")
                  (upd loader (with_display "flex")
                     (upd images_results_section (with_display "none")
                        (upd results_content (with_display "none")
                           (upd results_placeholder (with_display "none")
                              (dom st)))))) st)).
  destruct (submit_settle_failed_converts r (settled_evaluation st1) Hfail Hconv)
    as (e & Hrun).
  exists st1, (error_state e (settled_evaluation st1)).
  split.
  - unfold step. cbn [can_occur handler]. rewrite Hd. cbn [negb].
    rewrite submit_click_run, Hf. reflexivity.
  - split.
    + unfold step. cbn [can_occur handler]. unfold bind at 1. cbn [modify].
      rewrite Hrun. reflexivity.
    + split; [ reflexivity | ]. split; [ reflexivity | ].
      split; [ exists e; split; reflexivity | ].
      cbn. repeat split.
Qed.

(** [X14], for a rejected request on a page with a chosen file. *)
Lemma failed_submission_shows_only_the_error_witness :
  exists st1 st2,
    step ClickSubmit (state_after [ChangeFile (Some ad_jpeg)]) = Some st1
    /\ step (EvaluateSettles (Rejected "Failed to fetch")) st1 = Some st2
    /\ textContent (dom st2 placeholder_text)
       = [PStr "An error occurred during evaluation: "; PStr "Failed to fetch"]
    /\ style_display (dom st2 regenerate_button) = "none"
    /\ evaluations_in_flight st1 = 1%nat
    /\ evaluations_in_flight st2 = 0%nat.
Proof.
  destruct (failed_submission_shows_only_the_error ad_jpeg
              (Rejected "Failed to fetch")
              (state_after [ChangeFile (Some ad_jpeg)]))
    as (st1 & st2 & H1 & H2 & _ & _ & _ & _ & _ & _ & Hb & Hf1 & Hf2 & _).
  - reflexivity.
  - reflexivity.
  - reflexivity.
  - reflexivity.
  - exists st1, st2. split; [ exact H1 | ]. split; [ exact H2 | ].
    split.
    + vm_compute in H1. inversion H1 as [E1]. rewrite <- E1 in H2.
      vm_compute in H2. inversion H2 as [E2]. reflexivity.
    + split; [ exact Hb | ]. split; [ rewrite Hf1 | rewrite Hf2 ]; reflexivity.
Defined.

(** ** Order of the colours *)

(** [X15] A higher score never gets a worse colour: on positive scores the
    classification is monotone in the exact value (danger, then warning,
    then success). *)
Theorem getScoreColor_monotone (m1 m2 : positive) (e1 e2 : Z) :
  bounded JsNumber.prec JsNumber.emax m1 e1 = true ->
  bounded JsNumber.prec JsNumber.emax m2 e2 = true ->
  (JsNumber.F2Q false m1 e1 <= JsNumber.F2Q false m2 e2)%Q ->
  (color_rank (getScoreColor (S754_finite false m1 e1))
   <= color_rank (getScoreColor (S754_finite false m2 e2)))%nat.
Proof.
  intros B1 B2 Hle.
  destruct (getScoreColor_cases (S754_finite false m1 e1))
    as [(G8 & C1) | [(_ & G5 & C1) | (_ & _ & C1)]]; rewrite C1.
  - apply (ge_0_8_exact m1 e1 B1) in G8.
    assert (G8' : JsNumber.ge (S754_finite false m2 e2) JsNumber.lit_0_8 = true)
      by (apply (ge_0_8_exact m2 e2 B2); exact (Qle_trans _ _ _ G8 Hle)).
    unfold getScoreColor. rewrite G8'. apply le_n.
  - apply (ge_0_5_exact m1 e1 B1) in G5.
    assert (G5' : JsNumber.ge (S754_finite false m2 e2) JsNumber.lit_0_5 = true)
      by (apply (ge_0_5_exact m2 e2 B2); exact (Qle_trans _ _ _ G5 Hle)).
    unfold getScoreColor. rewrite G5'.
    destruct (JsNumber.ge (S754_finite false m2 e2) JsNumber.lit_0_8);
      [ apply le_S; apply le_n | apply le_n ].
  - apply Nat.le_0_l.
Qed.

(** [X15], between 0.5 and 0.8. *)
Lemma getScoreColor_monotone_witness :
  (color_rank (getScoreColor JsNumber.lit_0_5)
   <= color_rank (getScoreColor JsNumber.lit_0_8))%nat.
Proof.
  apply (getScoreColor_monotone 4503599627370496 7205759403792794 (-53) (-53)).
  - reflexivity.
  - reflexivity.
  - unfold Qle. vm_compute. discriminate.
Defined.

(** ** When the regenerate button is shown *)

(** A 2xx response whose body is [null] fails at the first read of the
    body, after the panels were switched. *)
Lemma submit_settle_nullish (status : nat) (data : JsVal) (st : State) :
  response_ok status = true ->
  nullish data = true ->
  exists e s1,
    submit_settle (Responded status (Some data)) st
      = Returns tt (error_state e s1)
    /\ style_display (dom s1 regenerate_button)
       = style_display (dom st regenerate_button).
Proof.
  intros Hok Hn. unfold submit_settle, try_catch, bind at 1.
  rewrite check_ok_ok by assumption. cbn [json ret].
  exists (Engine (ReadOfNullish data "refinement_plan")),
    (with_dom
       (upd results_content (with_display "block")
          (upd images_results_section (with_display "block")
             (upd results_placeholder (with_display "none")
                (upd loader (with_display "none") (dom st))))) st).
  destruct data as [ | | b | n | s | items | fields ]; try discriminate Hn;
    split; reflexivity.
Qed.

Lemma step_shows_button (ev : Event) (st st' : State) :
  step ev st = Some st' ->
  style_display (dom st' regenerate_button) = "block" ->
  style_display (dom st regenerate_button) = "block"
  \/ received_plan ev <> None.
Proof.
  intros Hs Hshown.
  pose (f := fun s : State => style_display (dom s regenerate_button)).
  destruct ev as [file | | | file | | r | | r].
  1-4, 7-8:
    left; rewrite <- Hshown; symmetry;
    refine (step_preserved f _ _ _ _ Hs); unfold_script; solve [ frame ].
  - (* a submit click hides the button, or only alerts *)
    left. revert Hs Hshown. unfold step.
    destruct (can_occur ClickSubmit st); [ | discriminate ].
    cbn [handler]. rewrite submit_click_run.
    destruct (imageFile st); intros E; inversion E; subst; intros H;
      [ discriminate H | exact H ].
  - destruct (fails_before_rendering r) eqn:Hfail.
    + left. revert Hs Hshown. unfold step.
      destruct (can_occur (EvaluateSettles r) st); [ | discriminate ].
      cbn [handler]. unfold bind at 1. cbn [modify].
      destruct (submit_settle_failed r (settled_evaluation st) Hfail)
        as [-> | (e & ->)]; [ discriminate | ].
      intros E. inversion E; subst. intros H. exact H.
    + destruct r as [message | status [data | ]]; try discriminate Hfail.
      cbn [fails_before_rendering] in Hfail. apply negb_false_iff in Hfail.
      destruct (nullish data) eqn:Hn.
      * left. revert Hs Hshown. unfold step.
        destruct (can_occur (EvaluateSettles (Responded status (Some data))) st);
          [ | discriminate ].
        cbn [handler]. unfold bind at 1. cbn [modify].
        destruct (submit_settle_nullish status data (settled_evaluation st)
                    Hfail Hn) as (e & s1 & -> & Hd).
        intros E. inversion E; subst. intros H.
        change (style_display (dom s1 regenerate_button) = "block") in H.
        rewrite Hd in H. exact H.
      * right. cbn [received_plan]. rewrite Hfail, Hn. discriminate.
Qed.

(** [X16] The regenerate button is never shown before a plan has been
    received: on a page that does not show it at load, if it is displayed
    after a trace then some 2xx evaluation response with a body occurred
    in that trace. *)
Theorem regenerate_button_needs_a_response
  (page : Dom) (evs : list Event) (st : State) :
  run evs (initial page) = Some st ->
  style_display (page regenerate_button) <> "block" ->
  style_display (dom st regenerate_button) = "block" ->
  exists ev, In ev evs /\ received_plan ev <> None.
Proof.
  intros Hrun Hinit.
  change (style_display (page regenerate_button))
    with (style_display (dom (initial page) regenerate_button)) in Hinit.
  revert Hrun Hinit. generalize (initial page) as s0. clear page.
  induction evs as [ | ev evs IH ]; intros s0; cbn [run].
  - intros E Hinit Hshown. inversion E; subst. contradiction.
  - destruct (step ev s0) as [s1 | ] eqn:Hs; [ | discriminate ].
    intros E Hinit Hshown.
    destruct (string_dec (style_display (dom s1 regenerate_button)) "block")
      as [H1 | H1].
    + destruct (step_shows_button _ _ _ Hs H1) as [H0 | Hr];
        [ contradiction | ].
      exists ev. split; [ left; reflexivity | exact Hr ].
    + destruct (IH s1 E H1 Hshown) as (ev' & Hin & Hr).
      exists ev'. split; [ right; exact Hin | exact Hr ].
Qed.

(** [X16], after one rendered critique. *)
Lemma regenerate_button_needs_a_response_witness :
  exists ev,
    In ev [ChangeFile (Some ad_jpeg); ClickSubmit;
           EvaluateSettles (Responded 200 (Some critique_A))]
    /\ received_plan ev <> None.
Proof.
  apply (regenerate_button_needs_a_response blank_page
           [ChangeFile (Some ad_jpeg); ClickSubmit;
            EvaluateSettles (Responded 200 (Some critique_A))]
           (state_after [ChangeFile (Some ad_jpeg); ClickSubmit;
                         EvaluateSettles (Responded 200 (Some critique_A))])).
  - vm_compute. reflexivity.
  - vm_compute. discriminate.
  - vm_compute. reflexivity.
Defined.


(** ** Before a file is chosen *)

Lemma idle_step (ev : Event) (st st' : State) :
  step ev st = Some st' ->
  selects_image ev = false ->
  (imageFile st = None /\ currentRefinementPlan st = JNull
   /\ requests st = [] /\ evaluations_in_flight st = 0%nat
   /\ regenerations_in_flight st = 0%nat) ->
  imageFile st' = None /\ currentRefinementPlan st' = JNull
  /\ requests st' = [] /\ evaluations_in_flight st' = 0%nat
  /\ regenerations_in_flight st' = 0%nat.
Proof.
  intros Hs Hsel (Hf & Hp & Hr & He & Hg).
  pose proof (step_can_occur _ _ _ Hs) as Hc.
  revert Hs. unfold step. rewrite Hc.
  destruct ev as [[file | ] | | | [file | ] | | r | | r];
    cbn [handler can_occur selects_image] in *.
  - rewrite handleFile_run, Hsel. intros E. inversion E; subst. cbn. auto.
  - intros E. inversion E; subst. auto.
  - intros E. inversion E; subst. cbn. auto.
  - intros E. inversion E; subst. cbn. auto.
  - unfold bind at 1. cbn [on modify]. rewrite handleFile_run, Hsel.
    intros E. inversion E; subst. cbn. auto.
  - intros E. inversion E; subst. cbn. auto.
  - rewrite submit_click_run, Hf. intros E. inversion E; subst. cbn. auto.
  - rewrite He in Hc. discriminate Hc.
  - rewrite regenerate_click_run, Hp. intros E. inversion E; subst. cbn. auto.
  - rewrite Hg in Hc. discriminate Hc.
Qed.

(** [X17] Until an image file has been selected nothing goes to the
    network: whatever else happens (clicks, drags, rejected files), no
    request is ever sent, no response can arrive, and a click on the
    submit button only raises the prompt. *)
Theorem nothing_sent_before_an_image
  (page : Dom) (evs : list Event) (st : State) :
  run evs (initial page) = Some st ->
  (forall ev, In ev evs -> selects_image ev = false) ->
  imageFile st = None
  /\ requests st = []
  /\ submit_click st = Returns tt (with_alert no_candidate st)
  /\ (forall r, step (EvaluateSettles r) st = None)
  /\ (forall r, step (RegenerateSettles r) st = None).
Proof.
  intros Hrun Hsel.
  assert (H : imageFile st = None /\ currentRefinementPlan st = JNull
              /\ requests st = [] /\ evaluations_in_flight st = 0%nat
              /\ regenerations_in_flight st = 0%nat).
  { assert (H0 : imageFile (initial page) = None
                 /\ currentRefinementPlan (initial page) = JNull
                 /\ requests (initial page) = []
                 /\ evaluations_in_flight (initial page) = 0%nat
                 /\ regenerations_in_flight (initial page) = 0%nat)
      by (repeat split).
    revert Hrun Hsel H0. generalize (initial page) as s0. clear page.
    induction evs as [ | ev evs IH ]; intros s0; cbn [run].
    - intros E _ H0. inversion E; subst. exact H0.
    - destruct (step ev s0) as [s1 | ] eqn:Hs; [ | discriminate ].
      intros E Hsel H0. apply (IH s1 E).
      + intros ev' Hin. apply Hsel. right. exact Hin.
      + exact (idle_step _ _ _ Hs (Hsel ev (or_introl eq_refl)) H0). }
  destruct H as (Hf & _ & Hr & He & Hg).
  split; [ exact Hf | ]. split; [ exact Hr | ].
  split; [ rewrite submit_click_run, Hf; reflexivity | ].
  split; intros r; unfold step; cbn [can_occur];
    rewrite ?He, ?Hg; reflexivity.
Qed.

(** [X17], after a text file was dropped and both buttons clicked. *)
Lemma nothing_sent_before_an_image_witness :
  requests (state_after [DragOver; DropFile (Some notes_txt); ClickRegenerate])
  = [].
Proof.
  apply (nothing_sent_before_an_image blank_page
           [DragOver; DropFile (Some notes_txt); ClickRegenerate]).
  - vm_compute. reflexivity.
  - intros ev [<- | [<- | [<- | []]]]; reflexivity.
Defined.

(** ** A body that cannot be rendered *)

Lemma displayCritiqueResults_panels (data : JsVal) (st : State) :
  wpr (displayCritiqueResults data) (fun _ _ => True)
    (fun s => style_display (dom s results_content) = "block"
              /\ style_display (dom s images_results_section) = "block") st.
Proof.
  unfold displayCritiqueResults.
  do 4 (apply wpr_bind; apply wpr_modify; cbv beta).
  eapply wpr_mono;
    [ | | apply (wpr_preserved
                   (fun s => (style_display (dom s results_content),
                              style_display (dom s images_results_section)))
                   _ (fun p => p = ("block", "block"))) ];
    cbv beta.
  - auto.
  - intros s E. injection E as E1 E2. split; assumption.
  - unfold scorecard_field, appendScoreCard, appendStrength. frame.
  - reflexivity.
Qed.

Lemma preserves_console_display (data : JsVal) (st : State) :
  wpr (displayCritiqueResults data)
    (fun _ s => console s = console st) (fun s => console s = console st) st.
Proof.
  apply (wpr_preserved console _ (fun c => c = console st)); [ | reflexivity ].
  unfold displayCritiqueResults, scorecard_field, appendScoreCard,
    appendStrength. frame.
Qed.

(** The submit handler on a 2xx response with a body: the rendering, with
    its exceptions turned into the error panel. *)
Lemma submit_settle_ok (status : nat) (data : JsVal) (st : State) :
  response_ok status = true ->
  submit_settle (Responded status (Some data)) st =
    match displayCritiqueResults data st with
    | Returns a s => Returns a s
    | Throws e s => Returns tt (error_state e s)
    | Unexpanded => Unexpanded
    end.
Proof.
  intros Hok. unfold submit_settle, try_catch, bind, check_ok.
  rewrite Hok. cbn [negb ret json].
  destruct (displayCritiqueResults data st); reflexivity.
Qed.

(** [X18] A 2xx response whose body cannot be rendered ends in the error
    panel with the results and images panels already switched on: the
    panels are displayed next to the panel titled "Analysis Failed", the
    loader is hidden and the error is logged. *)
Theorem unrenderable_body_leaves_panels_shown
  (status : nat) (data : JsVal) (st st' : State) :
  response_ok status = true ->
  renderable data = false ->
  submit_settle (Responded status (Some data)) st = Returns tt st' ->
  style_display (dom st' results_content) = "block"
  /\ style_display (dom st' images_results_section) = "block"
  /\ style_display (dom st' results_placeholder) = "flex"
  /\ textContent (dom st' placeholder_title) = [PStr "Analysis Failed"]
  /\ style_display (dom st' loader) = "none"
  /\ exists e, console st' = (evaluation_label, e) :: console st.
Proof.
  intros Hok Hr. rewrite submit_settle_ok by assumption.
  pose proof (displayCritiqueResults_wp3 data st) as H3.
  pose proof (displayCritiqueResults_panels data st) as Hp.
  pose proof (preserves_console_display data st) as Hc.
  unfold wp3 in H3. unfold wpr in Hp, Hc.
  destruct (displayCritiqueResults data st) as [a s1 | e s1 | ].
  - destruct H3 as [H3 _]. congruence.
  - intros E. inversion E; subst.
    destruct Hp as [Hp1 Hp2].
    split; [ exact Hp1 | ]. split; [ exact Hp2 | ].
    repeat (split; [ reflexivity | ]).
    exists e. cbn. rewrite Hc. reflexivity.
  - discriminate.
Qed.

(** [X18], for a body that has a plan but no scorecard. *)
Lemma unrenderable_body_leaves_panels_shown_witness :
  let st :=
    state_after [ChangeFile (Some ad_jpeg); ClickSubmit;
                 EvaluateSettles
                   (Responded 200 (Some (JObj [("refinement_plan", JStr "p")])))] in
  style_display (dom st results_content) = "block"
  /\ style_display (dom st results_placeholder) = "flex"
  /\ textContent (dom st placeholder_title) = [PStr "Analysis Failed"].
Proof.
  intros st.
  destruct (unrenderable_body_leaves_panels_shown 200
              (JObj [("refinement_plan", JStr "p")])
              (settled_evaluation
                 (state_after [ChangeFile (Some ad_jpeg); ClickSubmit]))
              st) as (H1 & _ & H3 & H4 & _).
  - reflexivity.
  - reflexivity.
  - vm_compute. reflexivity.
  - split; [ exact H1 | ]. split; [ exact H3 | exact H4 ].
Defined.

(** [X3], for a rejected file dropped on a highlighted area. *)
Lemma drop_is_leave_then_change_witness :
  step (DropFile (Some notes_txt)) (state_after [DragOver])
  = run [DragLeave; ChangeFile (Some notes_txt)] (state_after [DragOver])
  /\ drag_over
       (dom (state_after [DragOver; DropFile (Some notes_txt)]) upload_area)
     = false.
Proof.
  split.
  - apply (proj1 (drop_is_leave_then_change (Some notes_txt)
                    (state_after [DragOver]))).
  - apply (proj2 (drop_is_leave_then_change (Some notes_txt)
                    (state_after [DragOver]))).
    vm_compute. reflexivity.
Defined.

(** [X13], for a response whose body cannot be read. *)
Lemma handlers_never_throw_witness :
  handler (EvaluateSettles (Responded 500 None)) (initial blank_page)
  <> Throws (Engine JsonSyntax) (initial blank_page).
Proof.
  apply (handlers_never_throw (EvaluateSettles (Responded 500 None))
           (initial blank_page)).
Defined.

(** [X4], for a text file chosen before a JPEG. *)
Lemma last_selection_wins_witness :
  exists st12 st2,
    run [ChangeFile (Some notes_txt); ChangeFile (Some ad_jpeg)]
      (initial blank_page) = Some st12
    /\ run [ChangeFile (Some ad_jpeg)] (initial blank_page) = Some st2
    /\ same_page st12 st2.
Proof.
  exact (last_selection_wins notes_txt ad_jpeg (initial blank_page)).
Defined.
